(** * Distributed transformer orchestration
    (max/nn/transformer/distributed_transformer.py)

    The Python module declares a dataflow graph: every tensor operation
    is a call into the graph library and may raise.  The embedding keeps
    that shape.  Graph values and graph operations are an interface
    ([MaxGraph]); the two classes of the module are records whose
    sub-modules are their call functions; a Python call that can raise
    returns a [result]. *)

From Stdlib Require Import List ZArith String Bool Arith Lia.
From Stdlib Require Import Decimal DecimalString.
Import ListNotations.

Local Open Scope string_scope.
Local Open Scope list_scope.

(** ** Python: exceptions, sequences, formatting *)

Module Py.

Inductive Exception : Type :=
| ValueError (msg : string)
| AssertionError (msg : string)
| AttributeError (msg : string)
| IndexError (msg : string)
| TypeError (msg : string)
| RuntimeError (msg : string).

Inductive result (A : Type) : Type :=
| Raise (e : Exception)
| Return (a : A).

Arguments Raise {A} e.
Arguments Return {A} a.

Definition bind {A B} (c : result A) (k : A -> result B) : result B :=
  match c with
  | Raise e => Raise e
  | Return a => k a
  end.

Definition raises {A} (c : result A) : Prop :=
  exists e, c = Raise e.

Definition is_AttributeError (e : Exception) : bool :=
  match e with AttributeError _ => true | _ => false end.

Definition is_AssertionError (e : Exception) : bool :=
  match e with AssertionError _ => true | _ => false end.

Definition is_ValueError (e : Exception) : bool :=
  match e with ValueError _ => true | _ => false end.

(** [[f(x) for x in l]], left to right, stopping at the first raise. *)
Fixpoint mapM {A B} (f : A -> result B) (l : list A) : result (list B) :=
  match l with
  | [] => Return []
  | x :: xs =>
      bind (f x) (fun y => bind (mapM f xs) (fun ys => Return (y :: ys)))
  end.

(** A [for] loop threading one variable. *)
Fixpoint foldM {A S} (f : S -> A -> result S) (l : list A) (s : S)
  : result S :=
  match l with
  | [] => Return s
  | x :: xs => bind (f s x) (foldM f xs)
  end.

(** [enumerate(l)] *)
Definition enumerate {A} (l : list A) : list (nat * A) :=
  combine (seq 0 (List.length l)) l.

(** [l[i]] on a list: a negative index counts from the end, an index
    out of range raises [IndexError]. *)
Definition getitem {A} (l : list A) (i : Z) : result A :=
  let n := Z.of_nat (List.length l) in
  let j := if (i <? 0)%Z then (i + n)%Z else i in
  if ((j <? 0) || (n <=? j))%Z%bool
  then Raise (IndexError "list index out of range")
  else match nth_error l (Z.to_nat j) with
       | Some a => Return a
       | None => Raise (IndexError "list index out of range")
       end.

(** [idx in layer_group] for an [int] list. *)
Definition contains (idx : Z) (l : list Z) : bool :=
  existsb (Z.eqb idx) l.

(** [list(islice(it, n))] *)
Definition take {A} (it : list A) (n : nat) : list A := firstn n it.

(** [f"{n}"] for an [int]. *)
Definition str (z : Z) : string :=
  NilEmpty.string_of_int (Z.to_int z).

End Py.

Import Py.

Notation "x <- c ;; k" := (bind c (fun x => k))
  (at level 61, c at next level, right associativity).

(** ** The graph library, as the module uses it *)

Inductive DType : Type := uint32 | int64 | float32.

Inductive ReturnLogits : Type := LAST_TOKEN | VARIABLE | ALL.

Definition ReturnLogits_eqb (a b : ReturnLogits) : bool :=
  match a, b with
  | LAST_TOKEN, LAST_TOKEN | VARIABLE, VARIABLE | ALL, ALL => true
  | _, _ => false
  end.

Inductive ShardingStrategy : Type :=
| tensor_parallel (num_devices : nat).

Record DistributedGemmConfig : Type :=
  { enable_matmul_allreduce : bool }.

(** [max.graph.Value]: what a subgraph call takes and returns. *)
Inductive GraphValue (T B K : Type) : Type :=
| VTensor (t : T)
| VBuffer (b : B)
| VOpaque (kv : K).

Arguments VTensor {T B K} t.
Arguments VBuffer {T B K} b.
Arguments VOpaque {T B K} kv.

(** [max.graph] and the collectives, names as imported by the module.
    Every operation declares a node and may raise. *)
Class MaxGraph : Type := {
  TensorValue : Type;
  BufferValue : Type;
  DeviceRef : Type;
  KVCollection : Type;
  KVCacheParams : Type;
  TensorValueLike : Type;
  Weight : Type;
  GraphType : Type;
  Graph : Type;
  Dim : Type;

  CPU : DeviceRef;
  TensorType : DType -> list Z -> DeviceRef -> GraphType;
  tensor_type : TensorValue -> GraphType;
  buffer_type : BufferValue -> GraphType;
  kv_type : KVCollection -> GraphType;

  (* v.to(device) *)
  tensor_to : TensorValue -> DeviceRef -> result TensorValue;
  (* a + b, a - b, a - k, a[k:], a[k], a.shape[0], dim + a *)
  tensor_add : TensorValue -> TensorValue -> result TensorValue;
  tensor_sub : TensorValue -> TensorValue -> result TensorValue;
  tensor_sub_scalar : TensorValue -> Z -> result TensorValue;
  tensor_slice_from : TensorValue -> Z -> result TensorValue;
  tensor_index : TensorValue -> Z -> result TensorValue;
  tensor_shape0 : TensorValue -> result Dim;
  dim_add : Dim -> TensorValue -> result TensorValue;

  ops_constant : Z -> DType -> DeviceRef -> result TensorValue;
  ops_gather : TensorValue -> TensorValue -> Z -> result TensorValue;
  ops_cast : TensorValue -> DType -> result TensorValue;
  ops_range : TensorValue -> TensorValue -> TensorValue -> string ->
              DeviceRef -> result TensorValue;
  ops_unsqueeze : TensorValue -> Z -> result TensorValue;
  ops_reshape : TensorValue -> list Z -> result TensorValue;
  (* ops.call(graph, *args, prefix=...) *)
  ops_call : Graph -> list (GraphValue TensorValue BufferValue KVCollection) ->
             string -> result (list (GraphValue TensorValue BufferValue
                                                KVCollection));

  (* Allreduce(num_accelerators=n): what the constructor checks *)
  Allreduce_init : nat -> result unit;
  (* Allreduce(num_accelerators)(inputs, signal_buffers) *)
  allreduce_call : nat -> list TensorValue -> list BufferValue ->
                   result (list TensorValue);
  matmul_allreduce : list TensorValue -> list Weight -> list BufferValue ->
                     result (list TensorValue)
}.

Section Values.
Context {G : MaxGraph}.

Definition Value : Type := GraphValue TensorValue BufferValue KVCollection.

(** [x.tensor] *)
Definition Value_tensor (x : Value) : result TensorValue :=
  match x with
  | VTensor t => Return t
  | _ => Raise (TypeError "Value is not a TensorValue")
  end.

(** One entry of [subgraph_input_types]: a type or a list of types. *)
Inductive InputType : Type :=
| OneType (t : GraphType)
| TypeList (ts : list GraphType).

(** [distribute_value(v, devices)] *)
Definition distribute_value (v : TensorValue) (devices : list DeviceRef)
  : result (list TensorValue) :=
  mapM (fun device => tensor_to v device) devices.

(** Sub-modules are their call functions. *)
Definition DistributedRMSNorm : Type :=
  list TensorValue -> result (list TensorValue).

Definition ColumnParallelLinear : Type :=
  list TensorValue -> list BufferValue -> result (list TensorValue).

Definition VocabParallelEmbedding : Type :=
  TensorValueLike -> list BufferValue -> result (list TensorValue).

(** An attention module, and any module called like a block. *)
Definition BlockCall : Type :=
  TensorValue -> list TensorValue -> list BufferValue ->
  list KVCollection -> list TensorValue -> result (list TensorValue).

(** The final linear layer of an MLP shard; [weight] is an attribute. *)
Record Linear : Type := { weight : option Weight }.

(** One element of [mlp.shard(devices)]: callable, and it may or may
    not have a [down_proj] attribute. *)
Record MLPShard : Type := {
  shard_call : TensorValue -> result TensorValue;
  down_proj : option Linear
}.

(** [Shardable]: [sharding_strategy_setter s] is what the property
    setter does with [s] before it stores it (it may refuse), and
    [shard_with s devices] is [shard(devices)] once [sharding_strategy]
    holds [s]. *)
Record Shardable : Type := {
  sharding_strategy : option ShardingStrategy;
  sharding_strategy_setter : ShardingStrategy -> result unit;
  shard_with : ShardingStrategy -> list DeviceRef -> result (list MLPShard)
}.

Definition set_sharding_strategy (m : Shardable) (s : ShardingStrategy)
  : Shardable :=
  {| sharding_strategy := Some s;
     sharding_strategy_setter := sharding_strategy_setter m;
     shard_with := shard_with m |}.

(** [m.sharding_strategy = s] *)
Definition assign_sharding_strategy (m : Shardable) (s : ShardingStrategy)
  : result Shardable :=
  _ <- sharding_strategy_setter m s ;;
  Return (set_sharding_strategy m s).

Definition shard (m : Shardable) (devices : list DeviceRef)
  : result (list MLPShard) :=
  match sharding_strategy m with
  | Some s => shard_with m s devices
  | None => Raise (ValueError "no sharding strategy")
  end.

(** [Allreduce(num_accelerators=n)] *)
Record Allreduce : Type := { num_accelerators : nat }.

(** What [Module] gives every layer: [build_subgraph(name, input_types,
    weight_prefix)]. *)
Record Module : Type := {
  Module_build_subgraph : string -> list InputType -> string -> result Graph
}.

End Values.

(** ** class DistributedTransformerBlock *)

Module DistributedTransformerBlock.
Section Block.
Context {G : MaxGraph}.

Record t : Type := {
  super : Module;
  self_attn : BlockCall;
  mlp : Shardable;
  mlp_shards : list MLPShard;
  input_layernorm : DistributedRMSNorm;
  post_attention_layernorm : DistributedRMSNorm;
  devices : list DeviceRef;
  distributed_gemm_config : option DistributedGemmConfig;
  allreduce : Allreduce
}.

(** [super_init] is what [super().__init__()] gives: the module base
    object, unless the initialiser raises. *)
Definition __init__ (super_init : result Module) (attention : BlockCall)
    (mlp_ : Shardable) (attention_norm mlp_norm : DistributedRMSNorm)
    (devices_ : list DeviceRef)
    (distributed_gemm_config_ : option DistributedGemmConfig)
  : result t :=
  super_ <- super_init ;;
  mlp' <- assign_sharding_strategy mlp_
            (tensor_parallel (List.length devices_)) ;;
  shards <- shard mlp' devices_ ;;
  _ <- Allreduce_init (List.length devices_) ;;
  Return {| super := super_;
            self_attn := attention;
            mlp := mlp';
            mlp_shards := shards;
            input_layernorm := attention_norm;
            post_attention_layernorm := mlp_norm;
            devices := devices_;
            distributed_gemm_config := distributed_gemm_config_;
            allreduce := {| num_accelerators := List.length devices_ |} |}.

Definition build_subgraph (self : t) : string -> list InputType -> string ->
                                       result Graph :=
  Module_build_subgraph (super self).

(** [[x + y for x, y in zip(xs, ys)]] *)
Definition residual_add (xs ys : list TensorValue)
  : result (list TensorValue) :=
  mapM (fun p => tensor_add (fst p) (snd p)) (combine xs ys).

(** [self.mlp_shards[i](norm_outs[i])] *)
Definition apply_shard (shards : list MLPShard)
    (norm_outs : list TensorValue) (i : nat) : result TensorValue :=
  s <- getitem shards (Z.of_nat i) ;;
  x <- getitem norm_outs (Z.of_nat i) ;;
  shard_call s x.

(** [layer.down_proj.weight] *)
Definition down_proj_weight (layer : MLPShard) : result Weight :=
  match down_proj layer with
  | None => Raise (AttributeError "down_proj")
  | Some lin =>
      match weight lin with
      | None => Raise (AttributeError "weight")
      | Some w => Return w
      end
  end.

(** The test of the [if]: plain all-reduce unless the config asks for
    the split matmul + all-reduce. *)
Definition use_plain_allreduce (self : t) : bool :=
  match distributed_gemm_config self with
  | None => true
  | Some c => negb (enable_matmul_allreduce c)
  end.

Definition reduce (self : t) (mlp_outs : list TensorValue)
    (signal_buffers : list BufferValue) : result (list TensorValue) :=
  if use_plain_allreduce self
  then allreduce_call (num_accelerators (allreduce self)) mlp_outs
         signal_buffers
  else
    weights <- mapM down_proj_weight (mlp_shards self) ;;
    matmul_allreduce mlp_outs weights signal_buffers.

Definition __call__ (self : t) (layer_idx : TensorValue)
    (xs : list TensorValue) (signal_buffers : list BufferValue)
    (kv_collections : list KVCollection)
    (input_row_offsets : list TensorValue) : result (list TensorValue) :=
  normed <- input_layernorm self xs ;;
  attn_outs <- self_attn self layer_idx normed signal_buffers
                 kv_collections input_row_offsets ;;
  hs <- residual_add xs attn_outs ;;
  norm_outs <- post_attention_layernorm self hs ;;
  mlp_outs <- mapM (apply_shard (mlp_shards self) norm_outs)
                (seq 0 (List.length (mlp_shards self))) ;;
  mlp_outs <- reduce self mlp_outs signal_buffers ;;
  residual_add hs mlp_outs.

End Block.
End DistributedTransformerBlock.

(** ** class DistributedTransformer *)

Module DistributedTransformer.
Section Transformer.
Context {G : MaxGraph}.

(** An element of [layers].  The annotation says blocks; the
    [isinstance] assertion of [__call__] allows for anything else that
    is called like one. *)
Inductive Layer : Type :=
| Block (b : DistributedTransformerBlock.t)
| OtherModule (call : BlockCall).

Definition Layer_call (layer : Layer) : BlockCall :=
  match layer with
  | Block b => DistributedTransformerBlock.__call__ b
  | OtherModule call => call
  end.

Record t : Type := {
  dim : Z;
  n_heads : Z;
  layers : list Layer;
  norm : DistributedRMSNorm;
  lm_head : ColumnParallelLinear;
  embed_tokens : VocabParallelEmbedding;
  kv_params : KVCacheParams;
  kv_collection_constructor : list TensorValue -> result KVCollection;
  return_logits : ReturnLogits;
  devices : list DeviceRef;
  use_subgraphs : bool;
  subgraph_layer_groups : list (list Z)
}.

(** [[[i for i in range(len(layers))]]] *)
Definition default_groups (layers_ : list Layer) : list (list Z) :=
  [map Z.of_nat (seq 0 (List.length layers_))].

Definition variable_logits_error : Exception :=
  ValueError "DistributedTransformer does not support variable logits.".

Definition __init__ (dim_ n_heads_ : Z) (layers_ : list Layer)
    (norm_ : DistributedRMSNorm) (output : ColumnParallelLinear)
    (embedding : VocabParallelEmbedding) (kv_params_ : KVCacheParams)
    (kv_collection_constructor_ : list TensorValue -> result KVCollection)
    (devices_ : list DeviceRef) (return_logits_ : ReturnLogits)
    (use_subgraphs_ : bool) (subgraph_layer_groups_ : option (list (list Z)))
  : result t :=
  let groups :=
    match subgraph_layer_groups_ with
    | None => default_groups layers_
    | Some gs => gs
    end in
  let self :=
    {| dim := dim_; n_heads := n_heads_; layers := layers_; norm := norm_;
       lm_head := output; embed_tokens := embedding; kv_params := kv_params_;
       kv_collection_constructor := kv_collection_constructor_;
       return_logits := return_logits_; devices := devices_;
       use_subgraphs := use_subgraphs_; subgraph_layer_groups := groups |} in
  if ReturnLogits_eqb (return_logits self) VARIABLE
  then Raise variable_logits_error
  else Return self.

(** The defaults of the signature: [LAST_TOKEN], [False], [None]. *)
Definition __init__default dim_ n_heads_ layers_ norm_ output embedding
    kv_params_ kv_collection_constructor_ devices_ : result t :=
  __init__ dim_ n_heads_ layers_ norm_ output embedding kv_params_
    kv_collection_constructor_ devices_ LAST_TOKEN false None.

Section Call.
Variable self : t.
Variable signal_buffers : list BufferValue.
Variable kv_collections : list KVCollection.
Variable input_row_offsets_ : list TensorValue.

Definition subgraph_input_types (h : list TensorValue) : list InputType :=
  [ OneType (TensorType uint32 [] CPU);
    TypeList (map tensor_type h);
    TypeList (map buffer_type signal_buffers);
    TypeList (map kv_type kv_collections);
    TypeList (map tensor_type input_row_offsets_) ].

(** Body of the first loop: the two assertions, then [build_subgraph]
    on the group's first layer. *)
Definition build_group (types : list InputType) (p : nat * list Z)
  : result Graph :=
  let '(group_idx, layer_group) := p in
  if (0 <? List.length layer_group)%nat then
    first <- getitem layer_group 0 ;;
    subgraph_layer <- getitem (layers self) first ;;
    match subgraph_layer with
    | Block b =>
        DistributedTransformerBlock.build_subgraph b
          ("dist_transformer_block_" ++ str (Z.of_nat group_idx))%string
          types
          ("layers." ++ str first ++ ".")%string
    | OtherModule _ =>
        Raise (AssertionError
                 "Subgraph layer must be a DistributedTransformerBlock")
    end
  else
    Raise (AssertionError
             "Subgraph layer groups must contain at least one layer").

Definition build_subgraphs (types : list InputType) : result (list Graph) :=
  mapM (build_group types) (enumerate (subgraph_layer_groups self)).

(** The arguments of [ops.call] after the graph:
    [constant, *h, *signal_buffers, *kv_collections, *input_row_offsets_]. *)
Definition call_args (c : TensorValue) (h : list TensorValue) : list Value :=
  VTensor c ::
  map VTensor h ++ map VBuffer signal_buffers ++
  map VOpaque kv_collections ++ map VTensor input_row_offsets_.

(** [[x.tensor for x in ops.call(subgraphs[group_idx], ...)]] *)
Definition call_subgraph (subgraphs : list Graph) (group_idx idx : nat)
    (h : list TensorValue) : result (list TensorValue) :=
  sg <- getitem subgraphs (Z.of_nat group_idx) ;;
  c <- ops_constant (Z.of_nat idx) uint32 CPU ;;
  outs <- ops_call sg (call_args c h)
            ("layers." ++ str (Z.of_nat idx) ++ ".")%string ;;
  mapM Value_tensor outs.

(** The inner loop over the groups: the first group that contains
    [idx] is called and the loop breaks; [None] is [has_subgraph]
    still false at the end. *)
Fixpoint call_first_group (subgraphs : list Graph) (idx : nat)
    (h : list TensorValue) (groups : list (nat * list Z))
  : result (option (list TensorValue)) :=
  match groups with
  | [] => Return None
  | (group_idx, layer_group) :: rest =>
      if contains (Z.of_nat idx) layer_group then
        h' <- call_subgraph subgraphs group_idx idx h ;;
        Return (Some h')
      else call_first_group subgraphs idx h rest
  end.

(** [layer(ops.constant(idx, ...), h, signal_buffers, kv_collections,
    input_row_offsets_)] *)
Definition direct_step (h : list TensorValue) (p : nat * Layer)
  : result (list TensorValue) :=
  c <- ops_constant (Z.of_nat (fst p)) uint32 CPU ;;
  Layer_call (snd p) c h signal_buffers kv_collections input_row_offsets_.

Definition subgraph_step (subgraphs : list Graph) (h : list TensorValue)
    (p : nat * Layer) : result (list TensorValue) :=
  r <- call_first_group subgraphs (fst p) h
         (enumerate (subgraph_layer_groups self)) ;;
  match r with
  | Some h' => Return h'
  | None => direct_step h p
  end.

(** The [if self.use_subgraphs: ... else: ...] statement. *)
Definition run_layers (h : list TensorValue) : result (list TensorValue) :=
  if use_subgraphs self then
    subgraphs <- build_subgraphs (subgraph_input_types h) ;;
    foldM (subgraph_step subgraphs) (enumerate (layers self)) h
  else
    foldM direct_step (enumerate (layers self)) h.

End Call.

(** [cast(self.lm_head(self.norm(xs), signal_buffers)[0], float32)] *)
Definition project (self : t) (xs : list TensorValue)
    (signal_buffers : list BufferValue) : result TensorValue :=
  n <- norm self xs ;;
  o <- lm_head self n signal_buffers ;;
  o0 <- getitem o 0 ;;
  ops_cast o0 float32.

(** The [VARIABLE] branch. *)
Definition variable_logits (self : t) (h : list TensorValue)
    (signal_buffers : list BufferValue)
    (return_n_logits input_row_offsets : TensorValue)
  : result (TensorValue * TensorValue) :=
  n0 <- tensor_index return_n_logits 0 ;;
  zero <- ops_constant 0 int64 CPU ;;
  minus_one <- ops_constant (-1) int64 CPU ;;
  dev0 <- getitem (devices self) 0 ;;
  return_n_logits_range <-
    ops_range n0 zero minus_one "return_n_logits_range" dev0 ;;
  tail <- tensor_slice_from input_row_offsets 1 ;;
  unsq <- ops_unsqueeze tail (-1) ;;
  offsets <- tensor_sub unsq return_n_logits_range ;;
  last_indices <- ops_reshape offsets [(-1)%Z] ;;
  all_logits <- project self h signal_buffers ;;
  logits <- ops_gather all_logits last_indices 0 ;;
  zero' <- ops_constant 0 int64 CPU ;;
  d <- tensor_shape0 last_indices ;;
  n1 <- tensor_index return_n_logits 0 ;;
  stop <- dim_add d n1 ;;
  n2 <- tensor_index return_n_logits 0 ;;
  dev0' <- getitem (devices self) 0 ;;
  offsets' <- ops_range zero' stop n2 "logit_offsets" dev0' ;;
  Return (logits, offsets').

(** [input_row_offsets[1:] - 1] *)
Definition last_token_indices (input_row_offsets : TensorValue)
  : result TensorValue :=
  tail <- tensor_slice_from input_row_offsets 1 ;;
  tensor_sub_scalar tail 1.

(** Everything after the layer loop. *)
Definition extract_logits (self : t) (h : list TensorValue)
    (signal_buffers : list BufferValue)
    (return_n_logits input_row_offsets : TensorValue)
  : result (list TensorValue) :=
  h0 <- getitem h 0 ;;
  indices <- last_token_indices input_row_offsets ;;
  last_token_h <- ops_gather h0 indices 0 ;;
  last_token_distributed <- distribute_value last_token_h (devices self) ;;
  last_logits <- project self last_token_distributed signal_buffers ;;
  lo <- match return_logits self with
        | VARIABLE =>
            r <- variable_logits self h signal_buffers return_n_logits
                   input_row_offsets ;;
            Return (Some (fst r), Some (snd r))
        | ALL =>
            logits <- project self h signal_buffers ;;
            Return (Some logits, Some input_row_offsets)
        | LAST_TOKEN => Return (None, None)
        end ;;
  match lo with
  | (Some logits, Some offsets) => Return [last_logits; logits; offsets]
  | _ => Return [last_logits]
  end.

Definition __call__ (self : t) (tokens : TensorValueLike)
    (signal_buffers : list BufferValue)
    (kv_cache_inputs_per_dev : list (list TensorValue))
    (return_n_logits input_row_offsets : TensorValue)
  : result (list TensorValue) :=
  h <- embed_tokens self tokens signal_buffers ;;
  kv_collections <-
    mapM (kv_collection_constructor self) kv_cache_inputs_per_dev ;;
  input_row_offsets_ <- distribute_value input_row_offsets (devices self) ;;
  h <- run_layers self signal_buffers kv_collections input_row_offsets_ h ;;
  extract_logits self h signal_buffers return_n_logits input_row_offsets.

End Transformer.
End DistributedTransformer.

(** ** A reference graph library

    Integer tensors of rank one and two, evaluated eagerly, stand in
    for graph nodes when the orchestration is run on concrete input. *)

Module Ref.

Inductive RTensor : Type :=
| Vec (v : list Z)
| Mat (rows : list (list Z)).

Inductive RType : Type :=
| TScalar (d : DType)
| TRank (n : nat)
| TBuffer
| TKV.

Definition RValue : Type := GraphValue RTensor nat (list RTensor).

Definition RBlockCall : Type :=
  RTensor -> list RTensor -> list nat -> list (list RTensor) ->
  list RTensor -> result (list RTensor).

(** A compiled unit: how many buffers, cache handles and offsets it
    was compiled for, and the block computation as a function of the
    weight prefix it is called with. *)
Record RGraph : Type := {
  g_counts : nat * nat * nat;
  g_unit : string -> RBlockCall
}.

Definition shape_error {A} : result A :=
  Raise (ValueError "shapes do not match").

Definition unsupported {A} : result A :=
  Raise (RuntimeError "operation outside the reference semantics").

Fixpoint add_rows (a b : list Z) : result (list Z) :=
  match a, b with
  | [], [] => Return []
  | x :: a', y :: b' => r <- add_rows a' b' ;; Return ((x + y)%Z :: r)
  | _, _ => shape_error
  end.

Fixpoint add_mats (a b : list (list Z)) : result (list (list Z)) :=
  match a, b with
  | [], [] => Return []
  | x :: a', y :: b' =>
      r <- add_rows x y ;; rs <- add_mats a' b' ;; Return (r :: rs)
  | _, _ => shape_error
  end.

Definition add (a b : RTensor) : result RTensor :=
  match a, b with
  | Vec x, Vec y => r <- add_rows x y ;; Return (Vec r)
  | Mat x, Mat y => r <- add_mats x y ;; Return (Mat r)
  | _, _ => shape_error
  end.

Definition scale (w : Z) (a : RTensor) : RTensor :=
  match a with
  | Vec v => Vec (map (Z.mul w) v)
  | Mat rows => Mat (map (map (Z.mul w)) rows)
  end.

(** Modelled from the spec: [a - k] on an integer tensor subtracts [k]
    from every element ([offsets[i+1] - 1]); the graph library's
    subtraction is not part of this file. *)
Definition sub_scalar (a : RTensor) (k : Z) : result RTensor :=
  match a with
  | Vec v => Return (Vec (map (fun x => (x - k)%Z) v))
  | Mat rows => Return (Mat (map (map (fun x => (x - k)%Z)) rows))
  end.

(** Modelled from the spec: [a[k:]] drops the first [k] entries along
    axis 0 ([offsets[1:]]); the graph library's slicing is not part of
    this file. *)
Definition slice_from (a : RTensor) (k : Z) : result RTensor :=
  if (k <? 0)%Z then unsupported
  else match a with
       | Vec v => Return (Vec (skipn (Z.to_nat k) v))
       | Mat rows => Return (Mat (skipn (Z.to_nat k) rows))
       end.

(** Row [i] of a list; an index outside [0, len) is an error. *)
Definition row_at {A} (l : list A) (i : Z) : result A :=
  if (i <? 0)%Z then Raise (IndexError "gather index out of range")
  else match nth_error l (Z.to_nat i) with
       | Some a => Return a
       | None => Raise (IndexError "gather index out of range")
       end.

(** Modelled from the spec: [ops.gather(x, indices, axis=0)] picks, for
    each index in order, that row of [x]; the graph library's gather is
    not part of this file. *)
Definition gather (x indices : RTensor) (axis : Z) : result RTensor :=
  if negb (axis =? 0)%Z then unsupported
  else match x, indices with
       | Mat rows, Vec ix => r <- mapM (row_at rows) ix ;; Return (Mat r)
       | Vec v, Vec ix => r <- mapM (row_at v) ix ;; Return (Vec r)
       | _, _ => shape_error
       end.

Fixpoint sum_tensors (acc : RTensor) (xs : list RTensor) : result RTensor :=
  match xs with
  | [] => Return acc
  | x :: xs' => s <- add acc x ;; sum_tensors s xs'
  end.

(** The reference all-reduce wants at least one accelerator. *)
Definition accelerators_present (n : nat) : result unit :=
  if (n =? 0)%nat
  then Raise (ValueError "At least one accelerator is required")
  else Return tt.

(** Modelled from the spec: the collective reduction leaves on every
    device the combination (here the sum) of the per-device partial
    results; the all-reduce itself is not part of this file. *)
Definition allreduce_sum (n : nat) (xs : list RTensor) (bufs : list nat)
  : result (list RTensor) :=
  if negb (List.length xs =? n)%nat then shape_error
  else match xs with
       | [] => Return []
       | x :: xs' => s <- sum_tensors x xs' ;; Return (map (fun _ => s) xs)
       end.

Fixpoint scale_all (xs : list RTensor) (ws : list Z)
  : result (list RTensor) :=
  match xs, ws with
  | [], [] => Return []
  | x :: xs', w :: ws' =>
      r <- scale_all xs' ws' ;; Return (scale w x :: r)
  | _, _ => shape_error
  end.

(** Modelled from the spec: the fused variant applies each device's
    projection weight and reduces in one operation; the fused kernel is
    not part of this file. *)
Definition matmul_allreduce_sum (xs : list RTensor) (ws : list Z)
    (bufs : list nat) : result (list RTensor) :=
  ys <- scale_all xs ws ;;
  allreduce_sum (List.length xs) ys bufs.

Definition as_tensor (v : RValue) : result RTensor :=
  match v with
  | VTensor t => Return t
  | _ => Raise (TypeError "expected a tensor")
  end.

Definition as_buffer (v : RValue) : result nat :=
  match v with
  | VBuffer b => Return b
  | _ => Raise (TypeError "expected a buffer")
  end.

Definition as_opaque (v : RValue) : result (list RTensor) :=
  match v with
  | VOpaque k => Return k
  | _ => Raise (TypeError "expected an opaque value")
  end.

(** Modelled from the spec: calling a compiled unit runs the template's
    block logic on the arguments, with the weights resolved from the
    prefix given at the call; the graph library's [ops.call] is not
    part of this file. *)
Definition call (g : RGraph) (args : list RValue) (prefix : string)
  : result (list RValue) :=
  match args with
  | VTensor c :: rest =>
      let '(nb, nk, no) := g_counts g in
      if (List.length rest <? nb + nk + no)%nat
      then Raise (TypeError "too few arguments")
      else
        let nh := (List.length rest - (nb + nk + no))%nat in
        h <- mapM as_tensor (firstn nh rest) ;;
        bufs <- mapM as_buffer (firstn nb (skipn nh rest)) ;;
        kvs <- mapM as_opaque (firstn nk (skipn (nh + nb) rest)) ;;
        offs <- mapM as_tensor (skipn (nh + nb + nk) rest) ;;
        outs <- g_unit g prefix c h bufs kvs offs ;;
        Return (map VTensor outs)
  | _ => Raise (TypeError "expected the layer index")
  end.

Definition rank (a : RTensor) : RType :=
  match a with Vec _ => TRank 1 | Mat _ => TRank 2 end.

#[export] Instance graph : MaxGraph := {|
  TensorValue := RTensor;
  BufferValue := nat;
  DeviceRef := nat;
  KVCollection := list RTensor;
  KVCacheParams := unit;
  TensorValueLike := RTensor;
  Weight := Z;
  GraphType := RType;
  Graph := RGraph;
  Dim := Z;
  CPU := 0%nat;
  TensorType := fun d _ _ => TScalar d;
  tensor_type := rank;
  buffer_type := fun _ => TBuffer;
  kv_type := fun _ => TKV;
  tensor_to := fun v _ => Return v;
  tensor_add := add;
  tensor_sub := fun _ _ => unsupported;
  tensor_sub_scalar := sub_scalar;
  tensor_slice_from := slice_from;
  tensor_index := fun _ _ => unsupported;
  tensor_shape0 := fun _ => unsupported;
  dim_add := fun _ _ => unsupported;
  ops_constant := fun z _ _ => Return (Vec [z]);
  ops_gather := gather;
  ops_cast := fun a _ => Return a;
  ops_range := fun _ _ _ _ _ => unsupported;
  ops_unsqueeze := fun _ _ => unsupported;
  ops_reshape := fun _ _ => unsupported;
  ops_call := call;
  Allreduce_init := accelerators_present;
  allreduce_call := allreduce_sum;
  matmul_allreduce := matmul_allreduce_sum
|}.

End Ref.

(** ** Concrete blocks and models over the reference library *)

Module Example.
Import Ref.

Definition identity_norm : DistributedRMSNorm :=
  fun xs => Return xs.

Definition identity_attention : BlockCall :=
  fun _ normed _ _ _ => Return normed.

(** A shard that scales its input by its projection weight. *)
Definition scaling_shard (w : Z) : MLPShard :=
  {| shard_call := fun x => Return (scale w x);
     down_proj := Some {| weight := Some w |} |}.

(** A shard with no [down_proj] attribute. *)
Definition bare_shard : MLPShard :=
  {| shard_call := fun x => Return x; down_proj := None |}.

Definition mlp_of (s : MLPShard) : Shardable :=
  {| sharding_strategy := None;
     sharding_strategy_setter := fun _ => Return tt;
     shard_with := fun _ devices => Return (map (fun _ => s) devices) |}.

Definition two_devices : list nat := [0%nat; 1%nat].
Definition two_buffers : list nat := [10%nat; 11%nat].

(** A module that was never given a way to build a subgraph. *)
Definition no_subgraph : Module :=
  {| Module_build_subgraph :=
       fun _ _ _ => Raise (RuntimeError "build_subgraph") |}.

Definition make_block (super_ : Module) (s : MLPShard)
    (config : option DistributedGemmConfig) : DistributedTransformerBlock.t :=
  {| DistributedTransformerBlock.super := super_;
     DistributedTransformerBlock.self_attn := identity_attention;
     DistributedTransformerBlock.mlp :=
       set_sharding_strategy (mlp_of s) (tensor_parallel 2);
     DistributedTransformerBlock.mlp_shards := [s; s];
     DistributedTransformerBlock.input_layernorm := identity_norm;
     DistributedTransformerBlock.post_attention_layernorm := identity_norm;
     DistributedTransformerBlock.devices := two_devices;
     DistributedTransformerBlock.distributed_gemm_config := config;
     DistributedTransformerBlock.allreduce := {| num_accelerators := 2 |} |}.

(** The weight store: one projection weight per layer prefix. *)
Definition weights (prefix : string) : Z :=
  if String.eqb prefix "layers.0." then 2%Z
  else if String.eqb prefix "layers.1." then 3%Z
  else 1%Z.

Definition counts_of (types : list InputType) : result (nat * nat * nat) :=
  match types with
  | [OneType _; TypeList _; TypeList b; TypeList k; TypeList o] =>
      Return (List.length b, List.length k, List.length o)
  | _ => Raise (TypeError "subgraph input types")
  end.

(** The block logic shared by the layers, as a function of the prefix
    its weights are resolved from. *)
Definition block_unit (prefix : string) : RBlockCall :=
  DistributedTransformerBlock.__call__
    (make_block no_subgraph (scaling_shard (weights prefix)) None).

Definition compiling : Module :=
  {| Module_build_subgraph :=
       fun _ types _ =>
         c <- counts_of types ;;
         Return {| g_counts := c; g_unit := block_unit |} |}.

(** The layer whose weights live under [prefix]. *)
Definition block_at (prefix : string) : DistributedTransformerBlock.t :=
  make_block compiling (scaling_shard (weights prefix)) None.

Definition fused : option DistributedGemmConfig :=
  Some {| enable_matmul_allreduce := true |}.

Definition fused_block : DistributedTransformerBlock.t :=
  make_block no_subgraph (scaling_shard 2) fused.

Definition fused_bare_block : DistributedTransformerBlock.t :=
  make_block no_subgraph bare_shard fused.

(** Embedding: every device gets the token matrix. *)
Definition embedding : VocabParallelEmbedding :=
  fun tokens _ => Return [tokens; tokens].

Definition head : ColumnParallelLinear :=
  fun xs _ => Return xs.

Definition two_layers : list DistributedTransformer.Layer :=
  [ DistributedTransformer.Block (block_at "layers.0.");
    DistributedTransformer.Block (block_at "layers.1.") ].

(** A first layer that is called like a block but is not one. *)
Definition mixed_layers : list DistributedTransformer.Layer :=
  [ DistributedTransformer.OtherModule (fun _ h _ _ _ => Return h);
    DistributedTransformer.Block (block_at "layers.1.") ].

(** A second layer that is not built like the first. *)
Definition unlike_layers : list DistributedTransformer.Layer :=
  [ DistributedTransformer.Block (block_at "layers.0.");
    DistributedTransformer.OtherModule (fun _ h _ _ _ => Return h) ].

Definition kv_constructor (inputs : list RTensor) : result (list RTensor) :=
  Return inputs.

Definition model_of (layers_ : list DistributedTransformer.Layer)
    (mode : ReturnLogits) (use_subgraphs_ : bool) (groups : list (list Z))
  : DistributedTransformer.t :=
  {| DistributedTransformer.dim := 1;
     DistributedTransformer.n_heads := 1;
     DistributedTransformer.layers := layers_;
     DistributedTransformer.norm := identity_norm;
     DistributedTransformer.lm_head := head;
     DistributedTransformer.embed_tokens := embedding;
     DistributedTransformer.kv_params := tt;
     DistributedTransformer.kv_collection_constructor := kv_constructor;
     DistributedTransformer.return_logits := mode;
     DistributedTransformer.devices := two_devices;
     DistributedTransformer.use_subgraphs := use_subgraphs_;
     DistributedTransformer.subgraph_layer_groups := groups |}.

Definition model : ReturnLogits -> bool -> list (list Z) ->
                   DistributedTransformer.t :=
  model_of two_layers.

(** The constructor call that gives [model_of]. *)
Definition construct (layers_ : list DistributedTransformer.Layer)
    (mode : ReturnLogits) (use_subgraphs_ : bool)
    (groups : option (list (list Z))) : result DistributedTransformer.t :=
  DistributedTransformer.__init__ 1 1 layers_ identity_norm head embedding
    tt kv_constructor two_devices mode use_subgraphs_ groups.

(** Nine tokens in three sequences, one feature per token. *)
Definition tokens : RTensor :=
  Mat [[1]; [2]; [3]; [4]; [5]; [6]; [7]; [8]; [9]]%Z.

Definition row_offsets : RTensor := Vec [0; 3; 5; 9]%Z.

Definition run (m : DistributedTransformer.t) : result (list RTensor) :=
  DistributedTransformer.__call__ m tokens two_buffers [[]; []]
    (Vec [1%Z]) row_offsets.

(** One block call on the token matrix, one copy per device. *)
Definition run_block (b : DistributedTransformerBlock.t)
  : result (list RTensor) :=
  DistributedTransformerBlock.__call__ b (Vec [0%Z]) [tokens; tokens]
    two_buffers [[]; []] [row_offsets; row_offsets].

End Example.

(** ** Properties the statements below are written with *)

Section Predicates.
Context {G : MaxGraph}.

(** [zs] is the slot-by-slot sum of [xs] and [ys]: slot [i] of the
    result comes from slot [i] of both arguments. *)
Definition slotwise_sum (xs ys zs : list TensorValue) : Prop :=
  List.length zs = Nat.min (List.length xs) (List.length ys) /\
  forall i z, nth_error zs i = Some z ->
    exists x y, nth_error xs i = Some x /\ nth_error ys i = Some y /\
                tensor_add x y = Return z.

(** Slot [i] of [outs] is shard [i] applied to slot [i] of [ins]. *)
Definition slotwise_shards (shards : list MLPShard)
    (ins outs : list TensorValue) : Prop :=
  List.length outs = List.length shards /\
  forall i o, nth_error outs i = Some o ->
    exists s x, nth_error shards i = Some s /\ nth_error ins i = Some x /\
                shard_call s x = Return o.

(** The reduction the block's [distributed_gemm_config] asks for: the
    plain all-reduce when there is no config or its
    [enable_matmul_allreduce] is false, the split matmul + all-reduce
    over the shards' projection weights when it is true. *)
Definition reduced_by_strategy (self : DistributedTransformerBlock.t)
    (mlp_outs : list TensorValue) (signal_buffers : list BufferValue)
    (reduced : list TensorValue) : Prop :=
  ((DistributedTransformerBlock.distributed_gemm_config self = None \/
    exists c,
      DistributedTransformerBlock.distributed_gemm_config self = Some c /\
      enable_matmul_allreduce c = false) /\
   allreduce_call
     (num_accelerators (DistributedTransformerBlock.allreduce self))
     mlp_outs signal_buffers = Return reduced) \/
  ((exists c,
      DistributedTransformerBlock.distributed_gemm_config self = Some c /\
      enable_matmul_allreduce c = true) /\
   exists weights,
     Forall2 (fun s w =>
                DistributedTransformerBlock.down_proj_weight s = Return w)
       (DistributedTransformerBlock.mlp_shards self) weights /\
     matmul_allreduce mlp_outs weights signal_buffers = Return reduced).

(** The fused strategy is selected. *)
Definition fused_selected (config : option DistributedGemmConfig) : Prop :=
  exists c, config = Some c /\ enable_matmul_allreduce c = true.

(** A group the first loop of [__call__] asserts against: empty, or its
    first index names a layer that is not a block. *)
Definition bad_group (layers_ : list DistributedTransformer.Layer)
    (layer_group : list Z) : Prop :=
  layer_group = [] \/
  exists first rest call,
    layer_group = first :: rest /\
    getitem layers_ first = Return (DistributedTransformer.OtherModule call).

Definition set_use_subgraphs (self : DistributedTransformer.t) (b : bool)
  : DistributedTransformer.t :=
  {| DistributedTransformer.dim := DistributedTransformer.dim self;
     DistributedTransformer.n_heads := DistributedTransformer.n_heads self;
     DistributedTransformer.layers := DistributedTransformer.layers self;
     DistributedTransformer.norm := DistributedTransformer.norm self;
     DistributedTransformer.lm_head := DistributedTransformer.lm_head self;
     DistributedTransformer.embed_tokens :=
       DistributedTransformer.embed_tokens self;
     DistributedTransformer.kv_params := DistributedTransformer.kv_params self;
     DistributedTransformer.kv_collection_constructor :=
       DistributedTransformer.kv_collection_constructor self;
     DistributedTransformer.return_logits :=
       DistributedTransformer.return_logits self;
     DistributedTransformer.devices := DistributedTransformer.devices self;
     DistributedTransformer.use_subgraphs := b;
     DistributedTransformer.subgraph_layer_groups :=
       DistributedTransformer.subgraph_layer_groups self |}.

Definition set_subgraph_layer_groups (self : DistributedTransformer.t)
    (groups : list (list Z)) : DistributedTransformer.t :=
  {| DistributedTransformer.dim := DistributedTransformer.dim self;
     DistributedTransformer.n_heads := DistributedTransformer.n_heads self;
     DistributedTransformer.layers := DistributedTransformer.layers self;
     DistributedTransformer.norm := DistributedTransformer.norm self;
     DistributedTransformer.lm_head := DistributedTransformer.lm_head self;
     DistributedTransformer.embed_tokens :=
       DistributedTransformer.embed_tokens self;
     DistributedTransformer.kv_params := DistributedTransformer.kv_params self;
     DistributedTransformer.kv_collection_constructor :=
       DistributedTransformer.kv_collection_constructor self;
     DistributedTransformer.return_logits :=
       DistributedTransformer.return_logits self;
     DistributedTransformer.devices := DistributedTransformer.devices self;
     DistributedTransformer.use_subgraphs :=
       DistributedTransformer.use_subgraphs self;
     DistributedTransformer.subgraph_layer_groups := groups |}.

(** What a call of a compiled unit computes for layer [idx]:
    [[x.tensor for x in ops.call(sg, constant(idx), *h, ...)]]. *)
Definition unit_step (signal_buffers : list BufferValue)
    (kv_collections : list KVCollection)
    (input_row_offsets_ : list TensorValue) (sg : Graph) (idx : nat)
    (h : list TensorValue) : result (list TensorValue) :=
  c <- ops_constant (Z.of_nat idx) uint32 CPU ;;
  outs <- ops_call sg
            (DistributedTransformer.call_args signal_buffers kv_collections
               input_row_offsets_ c h)
            ("layers." ++ str (Z.of_nat idx) ++ ".")%string ;;
  mapM Value_tensor outs.


Section WeightsByPrefix.
Variable WeightSet : Type.

(** The weight store: the weights found under a prefix. *)
Variable store : string -> WeightSet.





End WeightsByPrefix.

(** What the tail of the call returns, by return mode. *)
Definition extracted (self : DistributedTransformer.t) (h : list TensorValue)
    (signal_buffers : list BufferValue)
    (return_n_logits input_row_offsets last_logits : TensorValue)
    (out : list TensorValue) : Prop :=
  match DistributedTransformer.return_logits self with
  | LAST_TOKEN => out = [last_logits]
  | ALL =>
      exists logits,
        DistributedTransformer.project self h signal_buffers = Return logits /\
        out = [last_logits; logits; input_row_offsets]
  | VARIABLE =>
      exists logits offsets,
        DistributedTransformer.variable_logits self h signal_buffers
          return_n_logits
          input_row_offsets = Return (logits, offsets) /\
        out = [last_logits; logits; offsets]
  end.

(** [h] is what the layer stack leaves: embedding, cache handles, offsets
    on every device, then the layers. *)
Definition stack_output (self : DistributedTransformer.t)
    (tokens : TensorValueLike) (signal_buffers : list BufferValue)
    (kv_cache_inputs_per_dev : list (list TensorValue))
    (input_row_offsets : TensorValue) (h : list TensorValue) : Prop :=
  exists h0 kv_collections input_row_offsets_,
    DistributedTransformer.embed_tokens self tokens signal_buffers
      = Return h0 /\
    mapM (DistributedTransformer.kv_collection_constructor self)
      kv_cache_inputs_per_dev = Return kv_collections /\
    distribute_value input_row_offsets (DistributedTransformer.devices self)
      = Return input_row_offsets_ /\
    DistributedTransformer.run_layers self signal_buffers kv_collections
      input_row_offsets_ h0 = Return h.

(** [last_logits] is the projection of the rows of [h[0]] gathered at
    [indices] along axis 0. *)
Definition last_logits_from (self : DistributedTransformer.t)
    (h : list TensorValue) (signal_buffers : list BufferValue)
    (indices last_logits : TensorValue) : Prop :=
  exists h0 last_token_h last_token_distributed,
    getitem h 0 = Return h0 /\
    ops_gather h0 indices 0 = Return last_token_h /\
    distribute_value last_token_h (DistributedTransformer.devices self)
      = Return last_token_distributed /\
    DistributedTransformer.project self last_token_distributed signal_buffers
      = Return last_logits.

End Predicates.

(** ** Iterators, and updates of one attribute *)

Module Iter.

(** [sys.maxsize] of a 64-bit build. *)
Definition maxsize : Z := (2 ^ 63 - 1)%Z.

(** [take(it, n)] when [it] is an iterator: the list returned, and what
    the iterator still holds after the call.  [islice] refuses a count
    that is negative or larger than [sys.maxsize]. *)
Definition take {A} (it : list A) (n : Z) : result (list A * list A) :=
  if ((n <? 0) || (maxsize <? n))%Z%bool
  then Raise (ValueError "Stop argument for islice() must be None or an integer: 0 <= x <= sys.maxsize.")
  else Return (firstn (Z.to_nat n) it, skipn (Z.to_nat n) it).

End Iter.

Section Updates.
Context {G : MaxGraph}.

(** The same shard with its [down_proj] attribute removed. *)
Definition without_down_proj (s : MLPShard) : MLPShard :=
  {| shard_call := shard_call s; down_proj := None |}.

Definition set_mlp_shards (self : DistributedTransformerBlock.t)
    (shards : list MLPShard) : DistributedTransformerBlock.t :=
  {| DistributedTransformerBlock.super :=
       DistributedTransformerBlock.super self;
     DistributedTransformerBlock.self_attn :=
       DistributedTransformerBlock.self_attn self;
     DistributedTransformerBlock.mlp := DistributedTransformerBlock.mlp self;
     DistributedTransformerBlock.mlp_shards := shards;
     DistributedTransformerBlock.input_layernorm :=
       DistributedTransformerBlock.input_layernorm self;
     DistributedTransformerBlock.post_attention_layernorm :=
       DistributedTransformerBlock.post_attention_layernorm self;
     DistributedTransformerBlock.devices :=
       DistributedTransformerBlock.devices self;
     DistributedTransformerBlock.distributed_gemm_config :=
       DistributedTransformerBlock.distributed_gemm_config self;
     DistributedTransformerBlock.allreduce :=
       DistributedTransformerBlock.allreduce self |}.

Definition set_return_logits (self : DistributedTransformer.t)
    (mode : ReturnLogits) : DistributedTransformer.t :=
  {| DistributedTransformer.dim := DistributedTransformer.dim self;
     DistributedTransformer.n_heads := DistributedTransformer.n_heads self;
     DistributedTransformer.layers := DistributedTransformer.layers self;
     DistributedTransformer.norm := DistributedTransformer.norm self;
     DistributedTransformer.lm_head := DistributedTransformer.lm_head self;
     DistributedTransformer.embed_tokens :=
       DistributedTransformer.embed_tokens self;
     DistributedTransformer.kv_params := DistributedTransformer.kv_params self;
     DistributedTransformer.kv_collection_constructor :=
       DistributedTransformer.kv_collection_constructor self;
     DistributedTransformer.return_logits := mode;
     DistributedTransformer.devices := DistributedTransformer.devices self;
     DistributedTransformer.use_subgraphs :=
       DistributedTransformer.use_subgraphs self;
     DistributedTransformer.subgraph_layer_groups :=
       DistributedTransformer.subgraph_layer_groups self |}.

Definition set_layers (self : DistributedTransformer.t)
    (layers_ : list DistributedTransformer.Layer) : DistributedTransformer.t :=
  {| DistributedTransformer.dim := DistributedTransformer.dim self;
     DistributedTransformer.n_heads := DistributedTransformer.n_heads self;
     DistributedTransformer.layers := layers_;
     DistributedTransformer.norm := DistributedTransformer.norm self;
     DistributedTransformer.lm_head := DistributedTransformer.lm_head self;
     DistributedTransformer.embed_tokens :=
       DistributedTransformer.embed_tokens self;
     DistributedTransformer.kv_params := DistributedTransformer.kv_params self;
     DistributedTransformer.kv_collection_constructor :=
       DistributedTransformer.kv_collection_constructor self;
     DistributedTransformer.return_logits :=
       DistributedTransformer.return_logits self;
     DistributedTransformer.devices := DistributedTransformer.devices self;
     DistributedTransformer.use_subgraphs :=
       DistributedTransformer.use_subgraphs self;
     DistributedTransformer.subgraph_layer_groups :=
       DistributedTransformer.subgraph_layer_groups self |}.

(** [idx] lies in none of the groups: the inner loop of the forward
    call ends with [has_subgraph] false. *)
Definition in_no_group (idx : nat) (groups : list (list Z)) : bool :=
  forallb (fun layer_group => negb (contains (Z.of_nat idx) layer_group))
    groups.

(** The first index of the group names no layer: [self.layers[first]]
    is out of range, from either end. *)
Definition template_out_of_range (layers_ : list DistributedTransformer.Layer)
    (layer_group : list Z) : Prop :=
  exists first rest,
    layer_group = first :: rest /\
    ((Z.of_nat (List.length layers_) <= first)%Z \/
     (first < - Z.of_nat (List.length layers_))%Z).

End Updates.

(** ** More concrete input: a missing device, a norm that returns
    nothing *)

Module Edge.
Import Ref Example.

(** Copies on a machine where device 7 is not available. *)
Definition to_available (v : RTensor) (device : nat) : result RTensor :=
  if (device =? 7)%nat
  then Raise (RuntimeError "device not available")
  else Return v.

(** The reference library with that [to]. *)
Definition missing_device : MaxGraph := {|
  TensorValue := RTensor;
  BufferValue := nat;
  DeviceRef := nat;
  KVCollection := list RTensor;
  KVCacheParams := unit;
  TensorValueLike := RTensor;
  Weight := Z;
  GraphType := RType;
  Graph := RGraph;
  Dim := Z;
  CPU := 0%nat;
  TensorType := fun d _ _ => TScalar d;
  tensor_type := rank;
  buffer_type := fun _ => TBuffer;
  kv_type := fun _ => TKV;
  tensor_to := to_available;
  tensor_add := add;
  tensor_sub := fun _ _ => unsupported;
  tensor_sub_scalar := sub_scalar;
  tensor_slice_from := slice_from;
  tensor_index := fun _ _ => unsupported;
  tensor_shape0 := fun _ => unsupported;
  dim_add := fun _ _ => unsupported;
  ops_constant := fun z _ _ => Return (Vec [z]);
  ops_gather := gather;
  ops_cast := fun a _ => Return a;
  ops_range := fun _ _ _ _ _ => unsupported;
  ops_unsqueeze := fun _ _ => unsupported;
  ops_reshape := fun _ _ => unsupported;
  ops_call := call;
  Allreduce_init := accelerators_present;
  allreduce_call := allreduce_sum;
  matmul_allreduce := matmul_allreduce_sum
|}.


(** A block whose post-attention norm returns no tensor. *)
Definition silent_norm_block : DistributedTransformerBlock.t :=
  {| DistributedTransformerBlock.super := no_subgraph;
     DistributedTransformerBlock.self_attn := identity_attention;
     DistributedTransformerBlock.mlp :=
       set_sharding_strategy (mlp_of (scaling_shard 2)) (tensor_parallel 2);
     DistributedTransformerBlock.mlp_shards :=
       [scaling_shard 2; scaling_shard 2];
     DistributedTransformerBlock.input_layernorm := identity_norm;
     DistributedTransformerBlock.post_attention_layernorm :=
       fun _ => Return [];
     DistributedTransformerBlock.devices := two_devices;
     DistributedTransformerBlock.distributed_gemm_config := None;
     DistributedTransformerBlock.allreduce := {| num_accelerators := 2 |} |}.

(** A layer, not a block, that returns no hidden state. *)
Definition silent_layers : list DistributedTransformer.Layer :=
  [ DistributedTransformer.OtherModule (fun _ _ _ _ _ => Return []) ].

(** The types the units of [model] are compiled for on [run]'s input. *)
Definition run_types : list InputType :=
  DistributedTransformer.subgraph_input_types two_buffers [[]; []]
    [row_offsets; row_offsets] [tokens; tokens].

End Edge.

(** ** Lemmas on the Python layer *)

Section PyFacts.

Lemma bind_Return {A B} (c : result A) (k : A -> result B) (b : B) :
  bind c k = Return b <-> exists a, c = Return a /\ k a = Return b.
Proof.
  split.
  - destruct c as [e | a]; simpl; intros H.
    + discriminate.
    + exists a. split; [reflexivity | exact H].
  - intros [a [-> H]]. exact H.
Qed.

Lemma bind_Raise {A B} (c : result A) (k : A -> result B) (e : Exception) :
  c = Raise e -> bind c k = Raise e.
Proof. intros ->. reflexivity. Qed.

Lemma bind_raises {A B} (c : result A) (k : A -> result B) :
  (forall a, c = Return a -> raises (k a)) -> raises (bind c k).
Proof.
  destruct c as [e | a]; simpl; intros H.
  - exists e. reflexivity.
  - apply H. reflexivity.
Qed.

Lemma mapM_Forall2 {A B} (f : A -> result B) (l : list A) (r : list B) :
  mapM f l = Return r <-> Forall2 (fun a b => f a = Return b) l r.
Proof.
  revert r. induction l as [| a l IH]; intros r; simpl.
  - split.
    + intros H. injection H as <-. constructor.
    + intros H. inversion H. reflexivity.
  - split.
    + intros H. apply bind_Return in H. destruct H as [b [Hb H]].
      apply bind_Return in H. destruct H as [bs [Hbs H]].
      injection H as <-. constructor; [exact Hb | apply IH; exact Hbs].
    + intros H. inversion H as [| a' b l' bs Hb Hbs]; subst.
      rewrite Hb. simpl. apply IH in Hbs. rewrite Hbs. reflexivity.
Qed.

Lemma Forall2_nth_error_r {A B} (R : A -> B -> Prop) l r :
  Forall2 R l r ->
  forall i b, nth_error r i = Some b ->
    exists a, nth_error l i = Some a /\ R a b.
Proof.
  induction 1 as [| a b l r Hab _ IH]; intros i y Hi.
  - destruct i; discriminate.
  - destruct i as [| i]; simpl in *.
    + injection Hi as <-. exists a. split; [reflexivity | exact Hab].
    + apply IH. exact Hi.
Qed.

Lemma Forall2_nth_error_l {A B} (R : A -> B -> Prop) l r :
  Forall2 R l r ->
  forall i a, nth_error l i = Some a ->
    exists b, nth_error r i = Some b /\ R a b.
Proof.
  induction 1 as [| a b l r Hab _ IH]; intros i y Hi.
  - destruct i; discriminate.
  - destruct i as [| i]; simpl in *.
    + injection Hi as <-. exists b. split; [reflexivity | exact Hab].
    + apply IH. exact Hi.
Qed.

Lemma mapM_length {A B} (f : A -> result B) l r :
  mapM f l = Return r -> List.length r = List.length l.
Proof.
  intros H. apply mapM_Forall2 in H. symmetry.
  eapply Forall2_length. exact H.
Qed.

(** A comprehension raises as soon as one element does. *)
Lemma mapM_raises {A B} (f : A -> result B) (Q : Exception -> Prop) l x :
  In x l -> (exists e, f x = Raise e) ->
  (forall y e, f y = Raise e -> Q e) ->
  exists e, mapM f l = Raise e /\ Q e.
Proof.
  intros Hin Hx HQ. induction l as [| a l IH]; [contradiction |].
  simpl. destruct (f a) as [e | b] eqn:Ha.
  - exists e. split; [reflexivity | eapply HQ; exact Ha].
  - simpl. destruct Hin as [-> | Hin].
    + destruct Hx as [e He]. congruence.
    + destruct (IH Hin) as [e [He Hq]]. exists e. rewrite He.
      split; [reflexivity | exact Hq].
Qed.

Lemma foldM_ext {A S} (f g : S -> A -> result S) (P : S -> Prop) l :
  (forall s x, In x l -> P s -> f s x = g s x) ->
  (forall s s' x, In x l -> P s -> g s x = Return s' -> P s') ->
  forall s, P s -> foldM f l s = foldM g l s.
Proof.
  induction l as [| a l IH]; intros Hfg Hp s Hs; simpl; [reflexivity |].
  rewrite (Hfg s a (or_introl eq_refl) Hs).
  destruct (g s a) as [e | s'] eqn:Hg; simpl; [reflexivity |].
  apply IH.
  - intros s0 x Hx. apply Hfg. right. exact Hx.
  - intros s0 s1 x Hx. apply Hp. right. exact Hx.
  - eapply Hp; [left; reflexivity | exact Hs | exact Hg].
Qed.

Lemma getitem_of_nat {A} (l : list A) (i : nat) (a : A) :
  getitem l (Z.of_nat i) = Return a <-> nth_error l i = Some a.
Proof.
  unfold getitem.
  destruct (Z.ltb_spec (Z.of_nat i) 0) as [Hneg | _]; [lia |].
  rewrite Nat2Z.id.
  destruct (Z.ltb_spec (Z.of_nat i) 0) as [Hneg | _]; [lia |]. simpl.
  destruct (Z.leb_spec (Z.of_nat (List.length l)) (Z.of_nat i)) as [Hge | Hlt].
  - split; [discriminate |]. intros H.
    assert (i < List.length l)%nat
      by (apply nth_error_Some; rewrite H; discriminate).
    lia.
  - destruct (nth_error l i) as [b |] eqn:Hn.
    + split; intros H; injection H as <-; reflexivity.
    + split; discriminate.
Qed.

Lemma in_combine_seq {A} (l : list A) (start i : nat) (a : A) :
  In (i, a) (combine (seq start (List.length l)) l) <->
  (start <= i)%nat /\ nth_error l (i - start) = Some a.
Proof.
  revert start. induction l as [| b l IH]; intros start; simpl.
  - split; [contradiction |]. intros [_ H]. destruct (i - start)%nat;
      discriminate.
  - split.
    + intros [H | H].
      * injection H as <- <-. split; [lia |].
        rewrite Nat.sub_diag. reflexivity.
      * apply IH in H. destruct H as [Hle Hn]. split; [lia |].
        replace (i - start)%nat with (S (i - S start)) by lia. exact Hn.
    + intros [Hle Hn].
      destruct (Nat.eq_dec start i) as [-> | Hne].
      * rewrite Nat.sub_diag in Hn. injection Hn as ->. left. reflexivity.
      * right. apply IH. split; [lia |].
        replace (i - start)%nat with (S (i - S start)) in Hn by lia.
        exact Hn.
Qed.

Lemma in_enumerate {A} (l : list A) (i : nat) (a : A) :
  In (i, a) (enumerate l) <-> nth_error l i = Some a.
Proof.
  unfold enumerate. rewrite in_combine_seq, Nat.sub_0_r.
  split; [intros [_ H]; exact H | intros H; split; [lia | exact H]].
Qed.



End PyFacts.

(** ** The transformer block *)

Section BlockFacts.
Context {G : MaxGraph}.

Import DistributedTransformerBlock.

Lemma nth_error_combine {A B} (xs : list A) (ys : list B) i x y :
  nth_error (combine xs ys) i = Some (x, y) ->
  nth_error xs i = Some x /\ nth_error ys i = Some y.
Proof.
  revert ys i. induction xs as [| a xs IH]; intros [| b ys] [| i]; simpl;
    try discriminate.
  - intros H. injection H as <- <-. split; reflexivity.
  - apply IH.
Qed.

Lemma residual_add_slotwise xs ys zs :
  residual_add xs ys = Return zs -> slotwise_sum xs ys zs.
Proof.
  unfold residual_add. intros H. split.
  - apply mapM_length in H. rewrite H. apply length_combine.
  - apply mapM_Forall2 in H. intros i z Hz.
    destruct (Forall2_nth_error_r _ _ _ H i z Hz) as [[x y] [Hp Hadd]].
    apply nth_error_combine in Hp. destruct Hp as [Hx Hy].
    exists x, y. repeat split; assumption.
Qed.

Lemma nth_error_seq_0 n i a :
  nth_error (seq 0 n) i = Some a -> a = i.
Proof.
  intros H.
  assert (Hlt : (i < n)%nat).
  { rewrite <- (length_seq n 0). apply nth_error_Some. rewrite H.
    discriminate. }
  rewrite (nth_error_nth' _ 0%nat) in H by (rewrite length_seq; exact Hlt).
  rewrite seq_nth in H by exact Hlt. injection H as <-. reflexivity.
Qed.

Lemma shards_slotwise shards ins outs :
  mapM (apply_shard shards ins) (seq 0 (List.length shards)) = Return outs ->
  slotwise_shards shards ins outs.
Proof.
  intros H. split.
  - apply mapM_length in H. rewrite H. apply length_seq.
  - apply mapM_Forall2 in H. intros i o Ho.
    destruct (Forall2_nth_error_r _ _ _ H i o Ho) as [a [Ha Happ]].
    apply nth_error_seq_0 in Ha. subst a.
    unfold apply_shard in Happ.
    apply bind_Return in Happ. destruct Happ as [s [Hs Happ]].
    apply bind_Return in Happ. destruct Happ as [x [Hx Happ]].
    apply getitem_of_nat in Hs. apply getitem_of_nat in Hx.
    exists s, x. repeat split; assumption.
Qed.

Lemma reduce_by_strategy self mlp_outs signal_buffers reduced :
  reduce self mlp_outs signal_buffers = Return reduced <->
  reduced_by_strategy self mlp_outs signal_buffers reduced.
Proof.
  unfold reduce, reduced_by_strategy, use_plain_allreduce.
  destruct (distributed_gemm_config self) as [[enabled] |]; simpl.
  - destruct enabled; simpl.
    + split.
      * intros H. right. split; [eexists; split; reflexivity |].
        apply bind_Return in H. destruct H as [ws [Hws H]].
        exists ws. split; [apply mapM_Forall2; exact Hws | exact H].
      * intros [[[Hn | [c [Hc He]]] _] | [_ [ws [Hws H]]]].
        -- discriminate Hn.
        -- injection Hc as <-. discriminate He.
        -- apply mapM_Forall2 in Hws. rewrite Hws. exact H.
    + split.
      * intros H. left. split; [| exact H].
        right. eexists. split; reflexivity.
      * intros [[_ H] | [[c [Hc He]] _]]; [exact H |].
        injection Hc as <-. discriminate He.
  - split.
    + intros H. left. split; [left; reflexivity | exact H].
    + intros [[_ H] | [[c [Hc _]] _]]; [exact H | discriminate Hc].
Qed.

(** The call succeeds exactly when its seven steps do, in order. *)
Lemma block_call_steps self layer_idx xs signal_buffers kv_collections
    input_row_offsets out :
  __call__ self layer_idx xs signal_buffers kv_collections input_row_offsets
    = Return out <->
  exists normed attn_outs hs norm_outs mlp_outs reduced,
    input_layernorm self xs = Return normed /\
    self_attn self layer_idx normed signal_buffers kv_collections
      input_row_offsets = Return attn_outs /\
    residual_add xs attn_outs = Return hs /\
    post_attention_layernorm self hs = Return norm_outs /\
    mapM (apply_shard (mlp_shards self) norm_outs)
      (seq 0 (List.length (mlp_shards self))) = Return mlp_outs /\
    reduce self mlp_outs signal_buffers = Return reduced /\
    residual_add hs reduced = Return out.
Proof.
  unfold __call__. split.
  - intros H.
    apply bind_Return in H. destruct H as [normed [H1 H]].
    apply bind_Return in H. destruct H as [attn_outs [H2 H]].
    apply bind_Return in H. destruct H as [hs [H3 H]].
    apply bind_Return in H. destruct H as [norm_outs [H4 H]].
    apply bind_Return in H. destruct H as [mlp_outs [H5 H]].
    apply bind_Return in H. destruct H as [reduced [H6 H]].
    exists normed, attn_outs, hs, norm_outs, mlp_outs, reduced.
    repeat split; assumption.
  - intros (normed & attn_outs & hs & norm_outs & mlp_outs & reduced &
            H1 & H2 & H3 & H4 & H5 & H6 & H7).
    rewrite H1; simpl. rewrite H2; simpl. rewrite H3; simpl.
    rewrite H4; simpl. rewrite H5; simpl. rewrite H6; simpl. exact H7.
Qed.

Lemma down_proj_weight_raises layer e :
  down_proj_weight layer = Raise e -> is_AttributeError e = true.
Proof.
  unfold down_proj_weight. destruct (down_proj layer) as [lin |].
  - destruct (weight lin); intros H; [discriminate |].
    injection H as <-. reflexivity.
  - intros H. injection H as <-. reflexivity.
Qed.

Lemma fused_not_plain self :
  fused_selected (distributed_gemm_config self) ->
  use_plain_allreduce self = false.
Proof.
  intros [c [Hc He]]. unfold use_plain_allreduce. rewrite Hc, He.
  reflexivity.
Qed.

End BlockFacts.

(** ** The layer stack and the logit extraction *)

Section TransformerFacts.
Context {G : MaxGraph}.

Import DistributedTransformer.

(** A forward call that returns went through its five stages. *)
Lemma call_stages self tokens signal_buffers kv_cache_inputs_per_dev
    return_n_logits input_row_offsets out :
  __call__ self tokens signal_buffers kv_cache_inputs_per_dev
    return_n_logits input_row_offsets = Return out <->
  exists h0 kv_collections input_row_offsets_ h,
    embed_tokens self tokens signal_buffers = Return h0 /\
    mapM (kv_collection_constructor self) kv_cache_inputs_per_dev
      = Return kv_collections /\
    distribute_value input_row_offsets (devices self)
      = Return input_row_offsets_ /\
    run_layers self signal_buffers kv_collections input_row_offsets_ h0
      = Return h /\
    extract_logits self h signal_buffers return_n_logits input_row_offsets
      = Return out.
Proof.
  unfold __call__. split.
  - intros H.
    apply bind_Return in H. destruct H as [h0 [H1 H]].
    apply bind_Return in H. destruct H as [kvs [H2 H]].
    apply bind_Return in H. destruct H as [offs [H3 H]].
    apply bind_Return in H. destruct H as [h [H4 H]].
    exists h0, kvs, offs, h. repeat split; assumption.
  - intros (h0 & kvs & offs & h & H1 & H2 & H3 & H4 & H5).
    rewrite H1; simpl. rewrite H2; simpl. rewrite H3; simpl.
    rewrite H4; simpl. exact H5.
Qed.

Lemma extract_logits_stages self h signal_buffers return_n_logits
    input_row_offsets out :
  extract_logits self h signal_buffers return_n_logits input_row_offsets
    = Return out ->
  exists h0 indices last_token_h last_token_distributed last_logits,
    getitem h 0 = Return h0 /\
    last_token_indices input_row_offsets = Return indices /\
    ops_gather h0 indices 0 = Return last_token_h /\
    distribute_value last_token_h (devices self)
      = Return last_token_distributed /\
    project self last_token_distributed signal_buffers
      = Return last_logits /\
    extracted self h signal_buffers return_n_logits input_row_offsets
      last_logits out.
Proof.
  unfold extract_logits, extracted. intros H.
  apply bind_Return in H. destruct H as [h0 [H1 H]].
  apply bind_Return in H. destruct H as [indices [H2 H]].
  apply bind_Return in H. destruct H as [lth [H3 H]].
  apply bind_Return in H. destruct H as [ltd [H4 H]].
  apply bind_Return in H. destruct H as [last_logits [H5 H]].
  apply bind_Return in H. destruct H as [lo [H6 H]].
  exists h0, indices, lth, ltd, last_logits.
  repeat (split; [assumption |]).
  destruct (return_logits self).
  - injection H6 as <-. injection H as <-. reflexivity.
  - apply bind_Return in H6. destruct H6 as [[logits offsets] [Hv H6]].
    injection H6 as <-. simpl in H. injection H as <-.
    exists logits, offsets. split; [exact Hv | reflexivity].
  - apply bind_Return in H6. destruct H6 as [logits [Hp H6]].
    injection H6 as <-. injection H as <-.
    exists logits. split; [exact Hp | reflexivity].
Qed.

Lemma extract_logits_from_stages self h signal_buffers return_n_logits
    input_row_offsets out h0 indices last_token_h last_token_distributed
    last_logits :
  getitem h 0 = Return h0 ->
  last_token_indices input_row_offsets = Return indices ->
  ops_gather h0 indices 0 = Return last_token_h ->
  distribute_value last_token_h (devices self)
    = Return last_token_distributed ->
  project self last_token_distributed signal_buffers = Return last_logits ->
  extracted self h signal_buffers return_n_logits input_row_offsets
    last_logits out ->
  extract_logits self h signal_buffers return_n_logits input_row_offsets
    = Return out.
Proof.
  intros E1 E2 E3 E4 E5 E6. unfold extract_logits.
  rewrite E1; cbn [bind]. rewrite E2; cbn [bind]. rewrite E3; cbn [bind].
  rewrite E4; cbn [bind]. rewrite E5; cbn [bind].
  unfold extracted in E6. destruct (return_logits self).
  - subst out. reflexivity.
  - destruct E6 as (logits & offsets & Hv & ->). rewrite Hv. reflexivity.
  - destruct E6 as (logits & Hp & ->). rewrite Hp. reflexivity.
Qed.

(** In direct mode the groups are never read. *)
Lemma direct_mode_ignores_groups self groups tokens signal_buffers
    kv_cache_inputs_per_dev return_n_logits input_row_offsets :
  use_subgraphs self = false ->
  __call__ (set_subgraph_layer_groups self groups) tokens signal_buffers
    kv_cache_inputs_per_dev return_n_logits input_row_offsets =
  __call__ self tokens signal_buffers kv_cache_inputs_per_dev
    return_n_logits input_row_offsets.
Proof.
  intros Hd. unfold __call__, run_layers. simpl. rewrite Hd. reflexivity.
Qed.

(** The assertions of the first loop. *)
Lemma build_group_bad self types group_idx layer_group :
  bad_group (layers self) layer_group ->
  exists e, build_group self types (group_idx, layer_group) = Raise e /\
            is_AssertionError e = true.
Proof.
  intros [-> | (first & rest & call & -> & Hget)]; simpl.
  - eexists. split; reflexivity.
  - rewrite Hget. simpl. eexists. split; reflexivity.
Qed.

Lemma build_subgraphs_bad self types layer_group :
  In layer_group (subgraph_layer_groups self) ->
  bad_group (layers self) layer_group ->
  raises (build_subgraphs self types).
Proof.
  intros Hin Hbad. apply In_nth_error in Hin. destruct Hin as [gi Hgi].
  apply in_enumerate in Hgi.
  destruct (build_group_bad self types gi layer_group Hbad) as [e [He _]].
  destruct (mapM_raises (build_group self types) (fun _ => True)
              (enumerate (subgraph_layer_groups self)) (gi, layer_group)
              Hgi (ex_intro _ e He) (fun _ _ _ => I)) as [e' [He' _]].
  exists e'. exact He'.
Qed.

Lemma call_raises_on_bad_group self layer_group tokens signal_buffers
    kv_cache_inputs_per_dev return_n_logits input_row_offsets :
  use_subgraphs self = true ->
  In layer_group (subgraph_layer_groups self) ->
  bad_group (layers self) layer_group ->
  raises (__call__ self tokens signal_buffers kv_cache_inputs_per_dev
            return_n_logits input_row_offsets).
Proof.
  intros Hs Hin Hbad. unfold __call__.
  apply bind_raises. intros h0 _.
  apply bind_raises. intros kvs _.
  apply bind_raises. intros offs _.
  apply bind_raises. intros h Hrun. exfalso.
  unfold run_layers in Hrun. rewrite Hs in Hrun.
  destruct (build_subgraphs_bad self
              (subgraph_input_types signal_buffers kvs offs h0) layer_group
              Hin Hbad) as [e He].
  rewrite He in Hrun. discriminate.
Qed.

End TransformerFacts.

(** ** Subgraph mode against direct mode *)

Section Subgraphs.
Context {G : MaxGraph}.

Import DistributedTransformer.

Variable self : t.
Variable signal_buffers : list BufferValue.
Variable kv_collections : list KVCollection.
Variable input_row_offsets_ : list TensorValue.


Lemma nth_error_enumerate_at {A} (l : list A) (i : nat) (a : A) :
  nth_error l i = Some a -> nth_error (enumerate l) i = Some (i, a).
Proof.
  unfold enumerate.
  assert (H : forall start i,
             nth_error l i = Some a ->
             nth_error (combine (seq start (List.length l)) l) i
               = Some ((start + i)%nat, a)).
  { clear i. induction l as [| b l IH]; intros start i; simpl.
    - destruct i; discriminate.
    - destruct i as [| i]; simpl.
      + intros H. injection H as ->. rewrite Nat.add_0_r. reflexivity.
      + intros H. rewrite (IH (S start) i H).
        f_equal. f_equal. lia. }
  intros Hi. apply (H 0%nat i Hi).
Qed.

Lemma call_subgraph_unit subgraphs group_idx idx h sg :
  nth_error subgraphs group_idx = Some sg ->
  call_subgraph signal_buffers kv_collections input_row_offsets_ subgraphs
    group_idx idx h =
  unit_step signal_buffers kv_collections input_row_offsets_ sg idx h.
Proof.
  intros Hsg. unfold call_subgraph, unit_step.
  rewrite (proj2 (getitem_of_nat subgraphs group_idx sg) Hsg). reflexivity.
Qed.








End Subgraphs.

(** ** Construction *)

Section Construction.
Context {G : MaxGraph}.

(** C1.  Whatever the other arguments, constructing the model with
    [return_logits = VARIABLE] raises the [ValueError] of the
    constructor, so no object exists on which a forward pass could be
    called; with [LAST_TOKEN] and with [ALL] the constructor returns the
    model. *)
Theorem variable_mode_rejected_at_construction
    dim n_heads layers norm output embedding kv_params
    kv_collection_constructor devices use_subgraphs subgraph_layer_groups :
  DistributedTransformer.__init__ dim n_heads layers norm output embedding
    kv_params kv_collection_constructor devices VARIABLE use_subgraphs
    subgraph_layer_groups
    = Raise DistributedTransformer.variable_logits_error /\
  (exists self,
      DistributedTransformer.__init__ dim n_heads layers norm output
        embedding kv_params kv_collection_constructor devices LAST_TOKEN
        use_subgraphs subgraph_layer_groups = Return self /\
      DistributedTransformer.return_logits self = LAST_TOKEN) /\
  (exists self,
      DistributedTransformer.__init__ dim n_heads layers norm output
        embedding kv_params kv_collection_constructor devices ALL
        use_subgraphs subgraph_layer_groups = Return self /\
      DistributedTransformer.return_logits self = ALL).
Proof.
  split; [reflexivity |].
  split; eexists; split; reflexivity.
Qed.

(** The constructor never looks into the groups it is given. *)
Lemma init_accepts_any_groups
    dim n_heads layers norm output embedding kv_params
    kv_collection_constructor devices mode use_subgraphs groups :
  mode <> VARIABLE ->
  exists self,
    DistributedTransformer.__init__ dim n_heads layers norm output embedding
      kv_params kv_collection_constructor devices mode use_subgraphs
      (Some groups) = Return self /\
    DistributedTransformer.subgraph_layer_groups self = groups /\
    DistributedTransformer.layers self = layers /\
    DistributedTransformer.use_subgraphs self = use_subgraphs.
Proof.
  intros Hmode. unfold DistributedTransformer.__init__. simpl.
  destruct mode; [| contradiction |]; simpl; eexists;
    repeat split; reflexivity.
Qed.

(** C3, as the code has it.  A group that is empty, or whose first
    index names a layer that is not a block, is accepted by the
    constructor, which stores the groups as given.  The assertions sit
    in the first loop of the forward call: with [use_subgraphs] true
    that call raises (an [AssertionError] from the offending group),
    with [use_subgraphs] false the groups are never read. *)
Theorem bad_group_is_rejected_by_the_forward_call
    dim n_heads layers norm output embedding kv_params
    kv_collection_constructor devices mode use_subgraphs groups layer_group :
  mode <> VARIABLE ->
  In layer_group groups ->
  bad_group layers layer_group ->
  exists self,
    DistributedTransformer.__init__ dim n_heads layers norm output embedding
      kv_params kv_collection_constructor devices mode use_subgraphs
      (Some groups) = Return self /\
    DistributedTransformer.subgraph_layer_groups self = groups /\
    (forall types group_idx,
        exists e,
          DistributedTransformer.build_group self types
            (group_idx, layer_group) = Raise e /\
          is_AssertionError e = true) /\
    (use_subgraphs = true ->
     forall tokens signal_buffers kv_cache_inputs_per_dev return_n_logits
            input_row_offsets,
       raises (DistributedTransformer.__call__ self tokens signal_buffers
                 kv_cache_inputs_per_dev return_n_logits input_row_offsets))
    /\
    (use_subgraphs = false ->
     forall groups' tokens signal_buffers kv_cache_inputs_per_dev
            return_n_logits input_row_offsets,
       DistributedTransformer.__call__
         (set_subgraph_layer_groups self groups') tokens signal_buffers
         kv_cache_inputs_per_dev return_n_logits input_row_offsets =
       DistributedTransformer.__call__ self tokens signal_buffers
         kv_cache_inputs_per_dev return_n_logits input_row_offsets).
Proof.
  intros Hmode Hin Hbad.
  destruct (init_accepts_any_groups dim n_heads layers norm output embedding
              kv_params kv_collection_constructor devices mode use_subgraphs
              groups Hmode) as (self & Hinit & Hgroups & Hlayers & Huse).
  exists self. split; [exact Hinit |]. split; [exact Hgroups |].
  rewrite <- Hlayers in Hbad. rewrite <- Hgroups in Hin.
  split; [| split].
  - intros types group_idx. apply build_group_bad. exact Hbad.
  - intros Htrue tokens signal_buffers kvs rn offs.
    apply (call_raises_on_bad_group self layer_group); try assumption.
    rewrite Huse. exact Htrue.
  - intros Hfalse groups' tokens signal_buffers kvs rn offs.
    apply direct_mode_ignores_groups. rewrite Huse. exact Hfalse.
Qed.

(** C2, as the code has it.  The block constructor never reads
    [down_proj]: with the fused strategy selected and a shard whose
    projection weight cannot be read, it returns the block, holding the
    shards of [mlp.shard(devices)], whenever [super().__init__()], the
    assignment of the sharding strategy and [Allreduce(...)] return, and
    when it raises, the exception is one of theirs, not the missing
    weight.  The weight is read inside the call, after attention, the
    norms and the shards have run: there the call raises an
    [AttributeError], and it can never return. *)
Theorem missing_projection_weight_fails_in_the_call
    super_init attention mlp attention_norm mlp_norm devices config shards
    bad_shard :
  fused_selected config ->
  shard (set_sharding_strategy mlp (tensor_parallel (List.length devices)))
    devices = Return shards ->
  In bad_shard shards ->
  raises (DistributedTransformerBlock.down_proj_weight bad_shard) ->
  match DistributedTransformerBlock.__init__ super_init attention mlp
          attention_norm mlp_norm devices config with
  | Return self =>
      DistributedTransformerBlock.mlp_shards self = shards /\
      (forall layer_idx xs signal_buffers kv_collections input_row_offsets,
          raises (DistributedTransformerBlock.__call__ self layer_idx xs
                    signal_buffers kv_collections input_row_offsets)) /\
      (forall layer_idx xs signal_buffers kv_collections input_row_offsets
              normed attn_outs hs norm_outs mlp_outs,
          attention_norm xs = Return normed ->
          attention layer_idx normed signal_buffers kv_collections
            input_row_offsets = Return attn_outs ->
          DistributedTransformerBlock.residual_add xs attn_outs
            = Return hs ->
          mlp_norm hs = Return norm_outs ->
          mapM (DistributedTransformerBlock.apply_shard shards norm_outs)
            (seq 0 (List.length shards)) = Return mlp_outs ->
          exists e,
            DistributedTransformerBlock.__call__ self layer_idx xs
              signal_buffers kv_collections input_row_offsets = Raise e /\
            is_AttributeError e = true)
  | Raise e =>
      super_init = Raise e \/
      sharding_strategy_setter mlp (tensor_parallel (List.length devices))
        = Raise e \/
      Allreduce_init (List.length devices) = Raise e
  end /\
  (forall super_,
      super_init = Return super_ ->
      sharding_strategy_setter mlp (tensor_parallel (List.length devices))
        = Return tt ->
      Allreduce_init (List.length devices) = Return tt ->
      exists self,
        DistributedTransformerBlock.__init__ super_init attention mlp
          attention_norm mlp_norm devices config = Return self).
Proof.
  intros Hfused Hshard Hin Hbad.
  assert (Hread : forall mlp_outs signal_buffers self,
             DistributedTransformerBlock.mlp_shards self = shards ->
             DistributedTransformerBlock.distributed_gemm_config self
               = config ->
             exists e,
               DistributedTransformerBlock.reduce self mlp_outs
                 signal_buffers = Raise e /\ is_AttributeError e = true).
  { intros mlp_outs signal_buffers self Hs Hc.
    unfold DistributedTransformerBlock.reduce.
    rewrite fused_not_plain by (rewrite Hc; exact Hfused). rewrite Hs.
    destruct (mapM_raises DistributedTransformerBlock.down_proj_weight
                (fun e => is_AttributeError e = true) shards bad_shard Hin
                Hbad down_proj_weight_raises) as [e [He Hq]].
    exists e. rewrite He. split; [reflexivity | exact Hq]. }
  unfold DistributedTransformerBlock.__init__, assign_sharding_strategy.
  split.
  - destruct super_init as [e | super_]; simpl; [left; reflexivity |].
    destruct (sharding_strategy_setter mlp
                (tensor_parallel (List.length devices))) as [e | []]; simpl;
      [right; left; reflexivity |].
    rewrite Hshard. simpl.
    destruct (Allreduce_init (List.length devices)) as [e | []]; simpl;
      [right; right; reflexivity |].
    split; [reflexivity |]. split.
    + intros layer_idx xs signal_buffers kvs offs.
      unfold DistributedTransformerBlock.__call__.
      apply bind_raises. intros normed _.
      apply bind_raises. intros attn_outs _.
      apply bind_raises. intros hs _.
      apply bind_raises. intros norm_outs _.
      apply bind_raises. intros mlp_outs _.
      apply bind_raises. intros reduced Hred. exfalso.
      match type of Hred with
      | DistributedTransformerBlock.reduce ?s _ _ = _ =>
          destruct (Hread mlp_outs signal_buffers s eq_refl eq_refl)
            as [e [He _]]
      end.
      rewrite He in Hred. discriminate.
    + intros layer_idx xs signal_buffers kvs offs normed attn_outs hs
        norm_outs mlp_outs H1 H2 H3 H4 H5.
      unfold DistributedTransformerBlock.__call__. simpl.
      rewrite H1; simpl. rewrite H2; simpl. rewrite H3; simpl.
      rewrite H4; simpl. rewrite H5; simpl.
      match goal with
      | |- exists e,
             bind (DistributedTransformerBlock.reduce ?s _ _) _ = _ /\ _
        => destruct (Hread mlp_outs signal_buffers s eq_refl eq_refl)
            as [e [He Hq]]
      end.
      exists e. rewrite He. split; [reflexivity | exact Hq].
  - intros super_ -> Hset Hall. simpl. rewrite Hset. simpl.
    rewrite Hshard. simpl. rewrite Hall. simpl. eexists. reflexivity.
Qed.


End Construction.

(** ** The forward pass *)

Section Forward.
Context {G : MaxGraph}.

(** C7.  A block call that returns went through exactly these steps,
    in this order: the pre-attention norm of the hidden shards;
    self-attention on the normed shards with the layer index, the signal
    buffers, the cache handles and the row offsets; the residual sum of
    hidden state and attention output; the post-attention norm; shard
    [i] of the MLP on slot [i] of the normed result; the reduction the
    block is configured for; the residual sum with the hidden state.
    Slot [i] of every list built on the way is made from slot [i] of the
    lists it is built from, and the result is as long as the shortest of
    input, attention output and reduction. *)
Theorem block_call_is_the_seven_step_sequence
    (self : DistributedTransformerBlock.t) layer_idx xs signal_buffers
    kv_collections input_row_offsets out :
  DistributedTransformerBlock.__call__ self layer_idx xs signal_buffers
    kv_collections input_row_offsets = Return out ->
  exists normed attn_outs hs norm_outs mlp_outs reduced,
    DistributedTransformerBlock.input_layernorm self xs = Return normed /\
    DistributedTransformerBlock.self_attn self layer_idx normed
      signal_buffers kv_collections input_row_offsets = Return attn_outs /\
    slotwise_sum xs attn_outs hs /\
    DistributedTransformerBlock.post_attention_layernorm self hs
      = Return norm_outs /\
    slotwise_shards (DistributedTransformerBlock.mlp_shards self) norm_outs
      mlp_outs /\
    reduced_by_strategy self mlp_outs signal_buffers reduced /\
    slotwise_sum hs reduced out /\
    List.length out =
      Nat.min (Nat.min (List.length xs) (List.length attn_outs))
        (List.length reduced).
Proof.
  intros H. apply block_call_steps in H.
  destruct H as (normed & attn_outs & hs & norm_outs & mlp_outs & reduced &
                 H1 & H2 & H3 & H4 & H5 & H6 & H7).
  exists normed, attn_outs, hs, norm_outs, mlp_outs, reduced.
  apply residual_add_slotwise in H3. apply residual_add_slotwise in H7.
  apply shards_slotwise in H5. apply reduce_by_strategy in H6.
  repeat (split; [assumption |]).
  destruct H3 as [L3 _]. destruct H7 as [L7 _]. rewrite L7, L3.
  reflexivity.
Qed.

(** C4.  A forward call that returns has computed [last_logits], the
    projection of the rows of [h[0]] gathered at
    [input_row_offsets[1:] - 1], and returns it first: alone for
    [LAST_TOKEN], followed by logits and offsets for [ALL] (and for
    [VARIABLE], were such a model to exist). *)
Theorem call_returns_last_logits_first
    (self : DistributedTransformer.t) tokens signal_buffers
    kv_cache_inputs_per_dev return_n_logits input_row_offsets out :
  DistributedTransformer.__call__ self tokens signal_buffers
    kv_cache_inputs_per_dev return_n_logits input_row_offsets = Return out ->
  exists h indices last_logits,
    stack_output self tokens signal_buffers kv_cache_inputs_per_dev
      input_row_offsets h /\
    DistributedTransformer.last_token_indices input_row_offsets
      = Return indices /\
    last_logits_from self h signal_buffers indices last_logits /\
    hd_error out = Some last_logits /\
    match DistributedTransformer.return_logits self with
    | LAST_TOKEN => out = [last_logits]
    | ALL | VARIABLE =>
        exists logits offsets, out = [last_logits; logits; offsets]
    end.
Proof.
  intros H. apply call_stages in H.
  destruct H as (h0 & kvs & offs & h & H1 & H2 & H3 & H4 & H5).
  apply extract_logits_stages in H5.
  destruct H5 as (hd0 & indices & lth & ltd & last_logits &
                  E1 & E2 & E3 & E4 & E5 & E6).
  exists h, indices, last_logits.
  split; [exists h0, kvs, offs; repeat split; assumption |].
  split; [exact E2 |].
  split; [exists hd0, lth, ltd; repeat split; assumption |].
  unfold extracted in E6.
  destruct (DistributedTransformer.return_logits self).
  - subst out. split; reflexivity.
  - destruct E6 as (logits & offsets & _ & ->).
    split; [reflexivity | exists logits, offsets; reflexivity].
  - destruct E6 as (logits & _ & ->).
    split; [reflexivity | exists logits, input_row_offsets; reflexivity].
Qed.

(** C6.  With [return_logits = ALL], a forward call that returns has
    projected the hidden states of the layer stack themselves: norm,
    output projection, first device, cast to float32, with no gather in
    between; and the third element of the tuple is the
    [input_row_offsets] argument. *)
Theorem all_mode_projects_every_token_and_keeps_offsets
    (self : DistributedTransformer.t) tokens signal_buffers
    kv_cache_inputs_per_dev return_n_logits input_row_offsets out :
  DistributedTransformer.return_logits self = ALL ->
  DistributedTransformer.__call__ self tokens signal_buffers
    kv_cache_inputs_per_dev return_n_logits input_row_offsets = Return out ->
  exists h last_logits logits normed projected first,
    stack_output self tokens signal_buffers kv_cache_inputs_per_dev
      input_row_offsets h /\
    DistributedTransformer.norm self h = Return normed /\
    DistributedTransformer.lm_head self normed signal_buffers
      = Return projected /\
    getitem projected 0 = Return first /\
    ops_cast first float32 = Return logits /\
    out = [last_logits; logits; input_row_offsets] /\
    nth_error out 2 = Some input_row_offsets.
Proof.
  intros Hall H. apply call_stages in H.
  destruct H as (h0 & kvs & offs & h & H1 & H2 & H3 & H4 & H5).
  apply extract_logits_stages in H5.
  destruct H5 as (hd0 & indices & lth & ltd & last_logits &
                  _ & _ & _ & _ & _ & E6).
  unfold extracted in E6. rewrite Hall in E6.
  destruct E6 as (logits & Hp & ->).
  unfold DistributedTransformer.project in Hp.
  apply bind_Return in Hp. destruct Hp as [normed [P1 Hp]].
  apply bind_Return in Hp. destruct Hp as [projected [P2 Hp]].
  apply bind_Return in Hp. destruct Hp as [first [P3 P4]].
  exists h, last_logits, logits, normed, projected, first.
  split; [exists h0, kvs, offs; repeat split; assumption |].
  repeat split; assumption.
Qed.


End Forward.

(** ** The reference library: indices, gather, unit calls *)

Section Reference.

Import Ref.

Lemma tail_minus_one_nth (offsets : list Z) (i : nat) :
  (S i < List.length offsets)%nat ->
  nth i (map (fun o => (o - 1)%Z) (tl offsets)) 0%Z
    = (nth (S i) offsets 0 - 1)%Z.
Proof.
  intros Hi. destruct offsets as [| o offsets]; simpl in *; [lia |].
  rewrite (nth_indep _ 0%Z ((fun o => (o - 1)%Z) 0%Z))
    by (rewrite length_map; lia).
  rewrite (map_nth (fun o => (o - 1)%Z)). reflexivity.
Qed.

Lemma ref_last_token_indices (offsets : list Z) :
  DistributedTransformer.last_token_indices (G := graph) (Vec offsets)
    = Return (Vec (map (fun o => (o - 1)%Z) (tl offsets))).
Proof. destruct offsets; reflexivity. Qed.

Lemma row_at_spec {A} (l : list A) (i : Z) (a : A) :
  row_at l i = Return a ->
  (0 <= i)%Z /\ nth_error l (Z.to_nat i) = Some a.
Proof.
  unfold row_at. destruct (Z.ltb_spec i 0) as [Hneg | Hpos];
    [discriminate |].
  destruct (nth_error l (Z.to_nat i)) as [b |]; [| discriminate].
  intros H. injection H as <-. split; [exact Hpos | reflexivity].
Qed.

Lemma gather_rows (rows : list (list Z)) (indices : list Z) gathered :
  gather (Mat rows) (Vec indices) 0 = Return gathered ->
  exists picked,
    gathered = Mat picked /\
    Forall2 (fun i r => (0 <= i)%Z /\ nth_error rows (Z.to_nat i) = Some r)
      indices picked.
Proof.
  unfold gather. simpl. intros H.
  apply bind_Return in H. destruct H as [picked [Hm H]].
  injection H as <-. exists picked. split; [reflexivity |].
  apply mapM_Forall2 in Hm.
  induction Hm as [| i r ix rs Hi _ IH]; constructor;
    [apply row_at_spec; exact Hi | exact IH].
Qed.










End Reference.

(** ** Last-token indices on the reference library *)

Section LastToken.

Import Ref.

(** C5.  For every row-offsets input of length [num_sequences + 1],
    non-decreasing or not, the indices the logit extraction computes are
    [offsets[1:] - 1] element by element: there are [num_sequences] of
    them and the one of sequence [i] is [offsets[i+1] - 1].  The hidden
    states that become [last_logits] are gathered at exactly these
    indices along axis 0 of [h[0]]: the forward call returns exactly
    when the stack returns [h], that gather, the copy to the devices and
    the projection return, and the tail of the call does. *)
Theorem last_token_rows_are_offsets_minus_one
    (offsets : list Z) (num_sequences : nat) :
  List.length offsets = S num_sequences ->
  exists indices,
    DistributedTransformer.last_token_indices (G := graph) (Vec offsets)
      = Return (Vec indices) /\
    List.length indices = num_sequences /\
    (forall i, (i < num_sequences)%nat ->
       nth i indices 0%Z = (nth (S i) offsets 0 - 1)%Z) /\
    forall (self : DistributedTransformer.t (G := graph)) tokens
           signal_buffers kv_cache_inputs_per_dev return_n_logits out,
      DistributedTransformer.__call__ self tokens signal_buffers
        kv_cache_inputs_per_dev return_n_logits (Vec offsets) = Return out
      <->
      exists h h0 gathered distributed last_logits,
        stack_output self tokens signal_buffers kv_cache_inputs_per_dev
          (Vec offsets) h /\
        getitem h 0 = Return h0 /\
        ops_gather h0 (Vec indices) 0 = Return gathered /\
        distribute_value gathered (DistributedTransformer.devices self)
          = Return distributed /\
        DistributedTransformer.project self distributed signal_buffers
          = Return last_logits /\
        extracted self h signal_buffers return_n_logits (Vec offsets)
          last_logits out.
Proof.
  intros Hlen.
  exists (map (fun o => (o - 1)%Z) (tl offsets)).
  split; [apply ref_last_token_indices |].
  split; [rewrite length_map; destruct offsets; simpl in *; lia |].
  split; [intros i Hi; apply tail_minus_one_nth; lia |].
  intros self tokens signal_buffers kvin rn out. split.
  - intros H. apply call_stages in H.
    destruct H as (e0 & kvs & offs & h & H1 & H2 & H3 & H4 & H5).
    apply extract_logits_stages in H5.
    destruct H5 as (h0 & indices0 & lth & ltd & last_logits &
                    E1 & E2 & E3 & E4 & E5 & E6).
    rewrite ref_last_token_indices in E2. injection E2 as <-.
    exists h, h0, lth, ltd, last_logits.
    split; [exists e0, kvs, offs; repeat split; assumption |].
    repeat split; assumption.
  - intros (h & h0 & lth & ltd & last_logits &
            (e0 & kvs & offs & H1 & H2 & H3 & H4) & E1 & E3 & E4 & E5 & E6).
    apply call_stages. exists e0, kvs, offs, h.
    repeat (split; [assumption |]).
    apply (extract_logits_from_stages self h signal_buffers rn (Vec offsets)
             out h0 _ lth ltd last_logits E1
             (ref_last_token_indices offsets) E3 E4 E5 E6).
Qed.

(** The example of the text: offsets [0, 3, 5, 9] give indices
    [2, 4, 8]. *)
Example last_token_indices_0_3_5_9 :
  DistributedTransformer.last_token_indices (G := graph)
    (Vec [0; 3; 5; 9]%Z) = Return (Vec [2; 4; 8]%Z).
Proof. reflexivity. Qed.

End LastToken.

(** ** Runs on the reference library *)

Section Runs.

Import Ref Example Edge.

Lemma block_at_is_constructed prefix :
  DistributedTransformerBlock.__init__ (Return compiling) identity_attention
    (mlp_of (scaling_shard (weights prefix))) identity_norm identity_norm
    two_devices None = Return (block_at prefix).
Proof. reflexivity. Qed.

Lemma fused_bare_block_is_constructed :
  DistributedTransformerBlock.__init__ (Return no_subgraph)
      identity_attention
    (mlp_of bare_shard) identity_norm identity_norm two_devices fused
  = Return fused_bare_block.
Proof. reflexivity. Qed.

Lemma model_is_constructed layers_ use_subgraphs_ groups :
  construct layers_ LAST_TOKEN use_subgraphs_ (Some groups)
  = Return (model_of layers_ LAST_TOKEN use_subgraphs_ groups).
Proof. reflexivity. Qed.

(** C2 fails as stated: the fused strategy is selected, no shard has a
    [down_proj], the block is constructed all the same, and its call
    raises the [AttributeError]. *)
Lemma fused_without_weight_is_constructed_and_fails_in_call :
  fused_selected fused /\
  DistributedTransformerBlock.__init__ (Return no_subgraph)
      identity_attention
    (mlp_of bare_shard) identity_norm identity_norm two_devices fused
  = Return fused_bare_block /\
  DistributedTransformerBlock.mlp_shards fused_bare_block
  = [bare_shard; bare_shard] /\
  DistributedTransformerBlock.down_proj_weight bare_shard
  = Raise (AttributeError "down_proj") /\
  run_block fused_bare_block = Raise (AttributeError "down_proj").
Proof.
  split; [eexists; split; reflexivity |].
  repeat split; reflexivity.
Qed.

Lemma missing_projection_weight_witness :
  fused_selected fused /\
  shard (set_sharding_strategy (mlp_of bare_shard)
           (tensor_parallel (List.length two_devices))) two_devices
  = Return [bare_shard; bare_shard] /\
  In bare_shard [bare_shard; bare_shard] /\
  raises (DistributedTransformerBlock.down_proj_weight bare_shard) /\
  exists self,
    DistributedTransformerBlock.__init__ (Return no_subgraph)
      identity_attention
      (mlp_of bare_shard) identity_norm identity_norm two_devices fused
    = Return self /\
    raises (run_block self).
Proof.
  assert (H1 : fused_selected fused) by (eexists; split; reflexivity).
  assert (H2 : shard (set_sharding_strategy (mlp_of bare_shard)
                        (tensor_parallel (List.length two_devices)))
                 two_devices = Return [bare_shard; bare_shard])
    by reflexivity.
  assert (H3 : In bare_shard [bare_shard; bare_shard])
    by (left; reflexivity).
  assert (H4 : raises (DistributedTransformerBlock.down_proj_weight
                         bare_shard))
    by (eexists; reflexivity).
  repeat (split; [assumption |]).
  destruct (missing_projection_weight_fails_in_the_call (Return no_subgraph)
              identity_attention (mlp_of bare_shard) identity_norm
              identity_norm two_devices fused [bare_shard; bare_shard]
              bare_shard H1 H2 H3 H4) as [Hmatch Hreturns].
  destruct (Hreturns no_subgraph eq_refl eq_refl eq_refl) as [self Hinit].
  rewrite Hinit in Hmatch. destruct Hmatch as (_ & Hraise & _).
  exists self. split; [exact Hinit | apply Hraise].
Defined.

(** C3 fails as stated: a model with an empty group, and one whose
    group starts at a layer that is not a block, are both constructed;
    it is the forward call in subgraph mode that raises the assertion,
    and the call in direct mode returns. *)
Lemma bad_groups_are_constructed_and_fail_in_call :
  construct two_layers LAST_TOKEN true (Some [[]])
  = Return (model LAST_TOKEN true [[]]) /\
  run (model LAST_TOKEN true [[]])
  = Raise (AssertionError
             "Subgraph layer groups must contain at least one layer") /\
  construct mixed_layers LAST_TOKEN true (Some [[0%Z]])
  = Return (model_of mixed_layers LAST_TOKEN true [[0%Z]]) /\
  run (model_of mixed_layers LAST_TOKEN true [[0%Z]])
  = Raise (AssertionError
             "Subgraph layer must be a DistributedTransformerBlock") /\
  run (model_of mixed_layers LAST_TOKEN false [[0%Z]])
  = Return [Mat [[42]; [70]; [126]]%Z].
Proof. repeat split; reflexivity. Qed.

Lemma bad_group_witness :
  LAST_TOKEN <> VARIABLE /\
  In [] [@nil Z] /\
  bad_group two_layers [] /\
  exists self,
    construct two_layers LAST_TOKEN true (Some [[]]) = Return self /\
    raises (run self).
Proof.
  assert (H1 : LAST_TOKEN <> VARIABLE) by discriminate.
  assert (H2 : In [] [@nil Z]) by (left; reflexivity).
  assert (H3 : bad_group two_layers []) by (left; reflexivity).
  repeat (split; [assumption |]).
  destruct (bad_group_is_rejected_by_the_forward_call 1%Z 1%Z two_layers
              identity_norm head embedding tt kv_constructor two_devices
              LAST_TOKEN true [[]] [] H1 H2 H3)
    as (self & Hinit & _ & _ & Hraise & _).
  exists self. split; [exact Hinit | apply Hraise; reflexivity].
Defined.


Lemma block_call_witness :
  run_block (block_at "layers.0.")
  = Return [Mat [[10]; [20]; [30]; [40]; [50]; [60]; [70]; [80]; [90]]%Z;
            Mat [[10]; [20]; [30]; [40]; [50]; [60]; [70]; [80]; [90]]%Z] /\
  run_block fused_block
  = Return [Mat [[18]; [36]; [54]; [72]; [90]; [108]; [126]; [144];
                 [162]]%Z;
            Mat [[18]; [36]; [54]; [72]; [90]; [108]; [126]; [144];
                 [162]]%Z] /\
  (exists mlp_outs reduced,
      allreduce_call (MaxGraph := graph) 2 mlp_outs two_buffers
      = Return reduced /\
      slotwise_sum (G := graph) [scale 2 tokens; scale 2 tokens] reduced
        [Mat [[10]; [20]; [30]; [40]; [50]; [60]; [70]; [80]; [90]]%Z;
         Mat [[10]; [20]; [30]; [40]; [50]; [60]; [70]; [80]; [90]]%Z]) /\
  (exists mlp_outs weights reduced,
      Forall2 (fun s w =>
                 DistributedTransformerBlock.down_proj_weight s = Return w)
        [scaling_shard 2; scaling_shard 2] weights /\
      matmul_allreduce (MaxGraph := graph) mlp_outs weights two_buffers
      = Return reduced /\
      slotwise_sum (G := graph) [scale 2 tokens; scale 2 tokens] reduced
        [Mat [[18]; [36]; [54]; [72]; [90]; [108]; [126]; [144]; [162]]%Z;
         Mat [[18]; [36]; [54]; [72]; [90]; [108]; [126]; [144];
              [162]]%Z]).
Proof.
  assert (H : run_block (block_at "layers.0.")
              = Return [Mat [[10]; [20]; [30]; [40]; [50]; [60]; [70]; [80];
                             [90]]%Z;
                        Mat [[10]; [20]; [30]; [40]; [50]; [60]; [70]; [80];
                             [90]]%Z]) by reflexivity.
  assert (Hf : run_block fused_block
               = Return [Mat [[18]; [36]; [54]; [72]; [90]; [108]; [126];
                              [144]; [162]]%Z;
                         Mat [[18]; [36]; [54]; [72]; [90]; [108]; [126];
                              [144]; [162]]%Z]) by reflexivity.
  split; [exact H |]. split; [exact Hf |]. split.
  - destruct (block_call_is_the_seven_step_sequence (block_at "layers.0.")
                (Vec [0%Z]) [tokens; tokens] two_buffers [[]; []]
                [row_offsets; row_offsets] _ H)
      as (normed & attn_outs & hs & norm_outs & mlp_outs & reduced &
          Hn & Ha & Hs & _ & _ & Hr & Ho & _).
    injection Hn as <-. injection Ha as <-.
    assert (Hhs : hs = [scale 2 tokens; scale 2 tokens]).
    { destruct Hs as [Hl Hslot].
      destruct hs as [| a [| b [| c hs]]]; try discriminate Hl.
      destruct (Hslot 0%nat a eq_refl) as (x & y & Hx & Hy & Hxy).
      injection Hx as <-. injection Hy as <-.
      destruct (Hslot 1%nat b eq_refl) as (x' & y' & Hx' & Hy' & Hxy').
      injection Hx' as <-. injection Hy' as <-.
      vm_compute in Hxy, Hxy'. injection Hxy as <-. injection Hxy' as <-.
      reflexivity. }
    subst hs.
    destruct Hr as [[_ Hr] | [[c [Hc _]] _]]; [| discriminate Hc].
    exists mlp_outs, reduced. split; [exact Hr | exact Ho].
  - destruct (block_call_is_the_seven_step_sequence fused_block
                (Vec [0%Z]) [tokens; tokens] two_buffers [[]; []]
                [row_offsets; row_offsets] _ Hf)
      as (normed & attn_outs & hs & norm_outs & mlp_outs & reduced &
          Hn & Ha & Hs & _ & _ & Hr & Ho & _).
    injection Hn as <-. injection Ha as <-.
    assert (Hhs : hs = [scale 2 tokens; scale 2 tokens]).
    { destruct Hs as [Hl Hslot].
      destruct hs as [| a [| b [| c hs]]]; try discriminate Hl.
      destruct (Hslot 0%nat a eq_refl) as (x & y & Hx & Hy & Hxy).
      injection Hx as <-. injection Hy as <-.
      destruct (Hslot 1%nat b eq_refl) as (x' & y' & Hx' & Hy' & Hxy').
      injection Hx' as <-. injection Hy' as <-.
      vm_compute in Hxy, Hxy'. injection Hxy as <-. injection Hxy' as <-.
      reflexivity. }
    subst hs.
    destruct Hr as [[[Hnone | [c [Hc He]]] _] | [_ [weights [Hw Hr]]]].
    + discriminate Hnone.
    + injection Hc as <-. discriminate He.
    + exists mlp_outs, weights, reduced.
      split; [exact Hw |]. split; [exact Hr | exact Ho].
Defined.

Lemma call_output_witness :
  run (model LAST_TOKEN false [[0; 1]%Z])
  = Return [Mat [[420]; [700]; [1260]]%Z] /\
  hd_error [Mat [[420]; [700]; [1260]]%Z] = Some (Mat [[420]; [700]; [1260]]%Z).
Proof.
  assert (H : run (model LAST_TOKEN false [[0; 1]%Z])
              = Return [Mat [[420]; [700]; [1260]]%Z]) by reflexivity.
  split; [exact H |].
  destruct (call_returns_last_logits_first (model LAST_TOKEN false [[0; 1]%Z])
              tokens two_buffers [[]; []] (Vec [1%Z]) row_offsets _ H)
    as (h & indices & last_logits & _ & _ & _ & Hhd & Hout).
  simpl in Hout. injection Hout as <-. exact Hhd.
Defined.

Lemma all_mode_witness :
  DistributedTransformer.return_logits (model ALL true [[0; 1]%Z]) = ALL /\
  run (model ALL true [[0; 1]%Z])
  = Return [Mat [[420]; [700]; [1260]]%Z;
            Mat [[140]; [280]; [420]; [560]; [700]; [840]; [980]; [1120];
                 [1260]]%Z;
            row_offsets] /\
  nth_error
    [Mat [[420]; [700]; [1260]]%Z;
     Mat [[140]; [280]; [420]; [560]; [700]; [840]; [980]; [1120];
          [1260]]%Z;
     row_offsets] 2 = Some row_offsets.
Proof.
  assert (H0 : DistributedTransformer.return_logits
                 (model ALL true [[0; 1]%Z]) = ALL) by reflexivity.
  assert (H : run (model ALL true [[0; 1]%Z])
              = Return [Mat [[420]; [700]; [1260]]%Z;
                        Mat [[140]; [280]; [420]; [560]; [700]; [840]; [980];
                             [1120]; [1260]]%Z;
                        row_offsets]) by reflexivity.
  split; [exact H0 |]. split; [exact H |].
  destruct (all_mode_projects_every_token_and_keeps_offsets
              (model ALL true [[0; 1]%Z]) tokens two_buffers [[]; []]
              (Vec [1%Z]) row_offsets _ H0 H)
    as (h & last_logits & logits & normed & projected & first &
        _ & _ & _ & _ & _ & _ & Hoff).
  exact Hoff.
Defined.

Lemma last_token_witness :
  List.length [0; 3; 5; 9]%Z = 4%nat /\
  exists indices,
    DistributedTransformer.last_token_indices (G := graph)
      (Vec [0; 3; 5; 9]%Z) = Return (Vec indices) /\
    List.length indices = 3%nat /\
    nth 0 indices 0%Z = 2%Z /\ nth 1 indices 0%Z = 4%Z /\
    nth 2 indices 0%Z = 8%Z /\
    exists gathered,
      ops_gather (MaxGraph := graph)
        (Mat [[140]; [280]; [420]; [560]; [700]; [840]; [980]; [1120];
              [1260]]%Z) (Vec indices) 0 = Return gathered.
Proof.
  assert (H0 : List.length [0; 3; 5; 9]%Z = 4%nat) by reflexivity.
  assert (H : run (model LAST_TOKEN false [[0; 1]%Z])
              = Return [Mat [[420]; [700]; [1260]]%Z]) by reflexivity.
  split; [exact H0 |].
  destruct (last_token_rows_are_offsets_minus_one [0; 3; 5; 9]%Z 3 H0)
    as (indices & Hidx & Hlen & Hnth & Hcall).
  exists indices. split; [exact Hidx |]. split; [exact Hlen |].
  split; [rewrite (Hnth 0%nat) by lia; reflexivity |].
  split; [rewrite (Hnth 1%nat) by lia; reflexivity |].
  split; [rewrite (Hnth 2%nat) by lia; reflexivity |].
  destruct (proj1 (Hcall (model LAST_TOKEN false [[0; 1]%Z]) tokens
                     two_buffers [[]; []] (Vec [1%Z]) _) H)
    as (h & h0 & gathered & distributed & last_logits &
        (e0 & kvs & offs & S1 & S2 & S3 & S4) & E1 & E3 & _).
  injection S1 as <-. injection S2 as <-. injection S3 as <-.
  vm_compute in S4. injection S4 as <-.
  vm_compute in E1. injection E1 as <-.
  exists gathered. exact E3.
Defined.



(** What the invariants of a group exclude.  With an empty group the
    model is constructed, the forward call raises when [use_subgraphs]
    is true and returns the logits when it is false.  With a group whose
    second layer is not built like its first, both calls return, with
    different logits: subgraph mode runs the unit of the first layer in
    place of the second. *)
Lemma groups_separate_the_two_modes :
  construct two_layers LAST_TOKEN false (Some [[]])
  = Return (model LAST_TOKEN false [[]]) /\
  run (set_use_subgraphs (model LAST_TOKEN false [[]]) true)
  = Raise (AssertionError
             "Subgraph layer groups must contain at least one layer") /\
  run (set_use_subgraphs (model LAST_TOKEN false [[]]) false)
  = Return [Mat [[420]; [700]; [1260]]%Z] /\
  run (set_use_subgraphs (model LAST_TOKEN false [[]]) true)
  <> run (set_use_subgraphs (model LAST_TOKEN false [[]]) false) /\
  construct unlike_layers LAST_TOKEN false (Some [[0; 1]%Z])
  = Return (model_of unlike_layers LAST_TOKEN false [[0; 1]%Z]) /\
  run (set_use_subgraphs
         (model_of unlike_layers LAST_TOKEN false [[0; 1]%Z]) true)
  = Return [Mat [[420]; [700]; [1260]]%Z] /\
  run (set_use_subgraphs
         (model_of unlike_layers LAST_TOKEN false [[0; 1]%Z]) false)
  = Return [Mat [[30]; [50]; [90]]%Z].
Proof.
  split; [reflexivity |]. split; [reflexivity |]. split; [reflexivity |].
  split; [discriminate |]. repeat split; reflexivity.
Qed.

End Runs.


(** ** [take] and [distribute_value] *)

Section Helpers.
Context {G : MaxGraph}.

(** X1.  [take] never raises on a short iterator: for a count between
    0 and [sys.maxsize] it returns the first [min(n, len)] items, and
    these followed by what is left in the iterator are the original
    items; a count outside that range is the [ValueError] of [islice]. *)
Theorem take_splits_the_iterator {A} (it : list A) (n : Z) :
  match Iter.take it n with
  | Return (items, rest) =>
      (0 <= n <= Iter.maxsize)%Z /\ items ++ rest = it /\
      List.length items = Nat.min (Z.to_nat n) (List.length it)
  | Raise e => ((n < 0)%Z \/ (Iter.maxsize < n)%Z) /\ is_ValueError e = true
  end.
Proof.
  unfold Iter.take.
  destruct (Z.ltb_spec n 0) as [Hneg | Hpos]; simpl.
  - split; [left; exact Hneg | reflexivity].
  - destruct (Z.ltb_spec Iter.maxsize n) as [Hbig | Hfit].
    + split; [right; exact Hbig | reflexivity].
    + split; [split; assumption |]. split.
      * apply firstn_skipn.
      * apply length_firstn.
Qed.

(** X2.  Two calls of [take] in a row on one iterator return what one
    call with the sum of the counts returns, cut in two, and leave the
    iterator in the same place, as long as the sum is a count [islice]
    accepts (at most [sys.maxsize]); beyond that the single call is a
    [ValueError] although the two calls returned. *)
Theorem take_twice_is_take_of_the_sum {A} (it : list A) (n m : Z)
    items1 rest1 items2 rest2 :
  Iter.take it n = Return (items1, rest1) ->
  Iter.take rest1 m = Return (items2, rest2) ->
  match Iter.take it (n + m) with
  | Return r => (n + m <= Iter.maxsize)%Z /\ r = (items1 ++ items2, rest2)
  | Raise e => (Iter.maxsize < n + m)%Z /\ is_ValueError e = true
  end.
Proof.
  unfold Iter.take.
  destruct (Z.ltb_spec n 0) as [Hn | Hn]; [discriminate |].
  destruct (Z.ltb_spec Iter.maxsize n) as [Hn' | Hn']; [discriminate |].
  destruct (Z.ltb_spec m 0) as [Hm | Hm]; [discriminate |].
  destruct (Z.ltb_spec Iter.maxsize m) as [Hm' | Hm']; [discriminate |].
  simpl. intros H1 H2. injection H1 as <- <-. injection H2 as <- <-.
  destruct (Z.ltb_spec (n + m) 0) as [Hs | Hs]; [lia |].
  destruct (Z.ltb_spec Iter.maxsize (n + m)) as [Hbig | Hfit]; simpl.
  - split; [exact Hbig | reflexivity].
  - split; [exact Hfit |].
    rewrite Z2Nat.inj_add by lia.
    f_equal.
    + rewrite <- (firstn_skipn (Z.to_nat n) it) at 1.
      rewrite firstn_app, length_firstn.
      destruct (Nat.le_ge_cases (Z.to_nat n) (List.length it))
        as [Hle | Hge].
      * rewrite Nat.min_l by exact Hle.
        rewrite firstn_all2 by (rewrite length_firstn; lia).
        f_equal. f_equal. lia.
      * rewrite Nat.min_r by exact Hge.
        rewrite firstn_all2 by (rewrite length_firstn; lia).
        rewrite (skipn_all2 it) by exact Hge.
        rewrite !firstn_nil. reflexivity.
    + rewrite skipn_skipn. f_equal. lia.
Qed.

(** X3.  When [distribute_value] returns, the list has one tensor per
    device, in the order of the devices: slot [i] is [v.to(devices[i])]. *)
Theorem distribute_value_is_one_per_device v devices out :
  distribute_value v devices = Return out ->
  List.length out = List.length devices /\
  forall i d, nth_error devices i = Some d ->
    exists t, nth_error out i = Some t /\ tensor_to v d = Return t.
Proof.
  unfold distribute_value. intros H. split.
  - apply (mapM_length _ _ _ H).
  - apply mapM_Forall2 in H. intros i d Hd.
    destruct (Forall2_nth_error_l _ _ _ H i d Hd) as [t [Ht Hto]].
    exists t. split; assumption.
Qed.

(** X4.  [distribute_value] stops at the first device whose copy
    raises and raises that exception; the devices after it are not
    tried. *)
Theorem distribute_value_raises_at_the_first_failure v reached d rest e :
  (forall d', In d' reached -> exists t, tensor_to v d' = Return t) ->
  tensor_to v d = Raise e ->
  distribute_value v (reached ++ d :: rest) = Raise e.
Proof.
  unfold distribute_value. intros Hok Hd.
  induction reached as [| a reached IH]; simpl.
  - rewrite Hd. reflexivity.
  - destruct (Hok a (or_introl eq_refl)) as [t Ht]. rewrite Ht. simpl.
    rewrite IH; [reflexivity |].
    intros d' Hin. apply Hok. right. exact Hin.
Qed.

End Helpers.

(** ** More on the transformer block *)

Section BlockEdges.
Context {G : MaxGraph}.

Import DistributedTransformerBlock.

Lemma mapM_first_failure {A B} (f : A -> result B) reached x rest e :
  (forall a, In a reached -> exists b, f a = Return b) ->
  f x = Raise e ->
  mapM f (reached ++ x :: rest) = Raise e.
Proof.
  intros Hok Hx. induction reached as [| a reached IH]; simpl.
  - rewrite Hx. reflexivity.
  - destruct (Hok a (or_introl eq_refl)) as [b Hb]. rewrite Hb. simpl.
    rewrite IH; [reflexivity |].
    intros a' Hin. apply Hok. right. exact Hin.
Qed.

Lemma getitem_map {A B} (f : A -> B) (l : list A) (i : Z) :
  getitem (map f l) i = (a <- getitem l i ;; Return (f a)).
Proof.
  unfold getitem. rewrite length_map.
  destruct ((if (i <? 0)%Z then (i + Z.of_nat (List.length l))%Z else i) <? 0)%Z;
    simpl; [reflexivity |].
  destruct (Z.of_nat (List.length l) <=?
            (if (i <? 0)%Z then (i + Z.of_nat (List.length l))%Z else i))%Z;
    simpl; [reflexivity |].
  rewrite nth_error_map.
  destruct (nth_error l _); reflexivity.
Qed.

Lemma getitem_beyond {A} (l : list A) (i : nat) :
  (List.length l <= i)%nat ->
  getitem l (Z.of_nat i) = Raise (IndexError "list index out of range").
Proof.
  intros Hi. unfold getitem.
  destruct (Z.ltb_spec (Z.of_nat i) 0) as [Hneg | _]; [lia |].
  destruct (Z.ltb_spec (Z.of_nat i) 0) as [Hneg | _]; [lia |]. simpl.
  destruct (Z.leb_spec (Z.of_nat (List.length l)) (Z.of_nat i)) as [_ | Hlt];
    [reflexivity | lia].
Qed.

(** X6.  With the plain all-reduce (no config, or
    [enable_matmul_allreduce] false) the block call never reads
    [down_proj]: removing that attribute from every shard changes
    nothing in what the call returns or raises. *)
Theorem plain_reduce_never_reads_down_proj
    (self : t) layer_idx xs signal_buffers kv_collections input_row_offsets :
  use_plain_allreduce self = true ->
  __call__ (set_mlp_shards self (map without_down_proj (mlp_shards self)))
    layer_idx xs signal_buffers kv_collections input_row_offsets
  = __call__ self layer_idx xs signal_buffers kv_collections
      input_row_offsets.
Proof.
  intros Hplain. unfold __call__. simpl.
  destruct (input_layernorm self xs) as [e | normed]; [reflexivity |]. simpl.
  destruct (self_attn self layer_idx normed signal_buffers kv_collections
              input_row_offsets) as [e | attn_outs]; [reflexivity |]. simpl.
  destruct (residual_add xs attn_outs) as [e | hs]; [reflexivity |]. simpl.
  destruct (post_attention_layernorm self hs) as [e | norm_outs];
    [reflexivity |]. simpl.
  rewrite length_map.
  assert (Hshards :
            mapM (apply_shard (map without_down_proj (mlp_shards self))
                    norm_outs) (seq 0 (List.length (mlp_shards self)))
            = mapM (apply_shard (mlp_shards self) norm_outs)
                (seq 0 (List.length (mlp_shards self)))).
  { generalize (seq 0 (List.length (mlp_shards self))) as idxs.
    induction idxs as [| i idxs IH]; [reflexivity |].
    cbn [mapM]. rewrite IH. f_equal.
    unfold apply_shard. rewrite getitem_map.
    destruct (getitem (mlp_shards self) (Z.of_nat i)); reflexivity. }
  rewrite Hshards.
  destruct (mapM (apply_shard (mlp_shards self) norm_outs)
              (seq 0 (List.length (mlp_shards self)))) as [e | mlp_outs];
    [reflexivity |]. simpl.
  unfold reduce. simpl.
  change (use_plain_allreduce
            (set_mlp_shards self (map without_down_proj (mlp_shards self))))
    with (use_plain_allreduce self).
  rewrite Hplain. reflexivity.
Qed.

(** X7.  The block indexes the normed tensors by shard number.  If the
    post-attention norm returns fewer tensors than there are shards, and
    the shards that do find their slot return, the call raises
    [IndexError]. *)
Theorem too_few_normed_tensors_is_an_index_error
    (self : t) layer_idx xs signal_buffers kv_collections input_row_offsets
    normed attn_outs hs norm_outs :
  input_layernorm self xs = Return normed ->
  self_attn self layer_idx normed signal_buffers kv_collections
    input_row_offsets = Return attn_outs ->
  residual_add xs attn_outs = Return hs ->
  post_attention_layernorm self hs = Return norm_outs ->
  (List.length norm_outs < List.length (mlp_shards self))%nat ->
  (forall i s x, nth_error (mlp_shards self) i = Some s ->
                 nth_error norm_outs i = Some x ->
                 exists y, shard_call s x = Return y) ->
  __call__ self layer_idx xs signal_buffers kv_collections input_row_offsets
  = Raise (IndexError "list index out of range").
Proof.
  intros H1 H2 H3 H4 Hlen Htotal. unfold __call__.
  rewrite H1; simpl. rewrite H2; simpl. rewrite H3; simpl. rewrite H4; simpl.
  set (k := List.length norm_outs) in *.
  set (n := List.length (mlp_shards self)) in *.
  assert (Hseq : seq 0 n = seq 0 k ++ k :: seq (S k) (n - S k)).
  { replace n with (k + S (n - S k))%nat at 1 by lia.
    rewrite seq_app. simpl. reflexivity. }
  rewrite Hseq.
  rewrite (mapM_first_failure (apply_shard (mlp_shards self) norm_outs)
             (seq 0 k) k (seq (S k) (n - S k))
             (IndexError "list index out of range")).
  - reflexivity.
  - intros i Hi. apply in_seq in Hi.
    destruct (nth_error (mlp_shards self) i) as [s |] eqn:Hs.
    2:{ apply nth_error_None in Hs. fold n in Hs. lia. }
    destruct (nth_error norm_outs i) as [x |] eqn:Hx.
    2:{ apply nth_error_None in Hx. fold k in Hx. lia. }
    destruct (Htotal i s x Hs Hx) as [y Hy]. exists y.
    unfold apply_shard.
    rewrite (proj2 (getitem_of_nat _ i s) Hs). simpl.
    rewrite (proj2 (getitem_of_nat _ i x) Hx). simpl. exact Hy.
  - unfold apply_shard.
    destruct (nth_error (mlp_shards self) k) as [s |] eqn:Hs.
    2:{ apply nth_error_None in Hs. fold n in Hs. lia. }
    rewrite (proj2 (getitem_of_nat _ k s) Hs). simpl.
    rewrite getitem_beyond by (fold k; lia). reflexivity.
Qed.

End BlockEdges.

(** ** More on the forward pass *)

Section ForwardEdges.
Context {G : MaxGraph}.

Import DistributedTransformer.

Lemma foldM_app {A S} (f : S -> A -> result S) (l1 l2 : list A) (s : S) :
  foldM f (l1 ++ l2) s = (s' <- foldM f l1 s ;; foldM f l2 s').
Proof.
  revert s. induction l1 as [| a l1 IH]; intros s; simpl; [reflexivity |].
  destruct (f s a) as [e | s']; simpl; [reflexivity | apply IH].
Qed.

Lemma combine_seq_snoc {A} (l : list A) (x : A) (start : nat) :
  combine (seq start (List.length (l ++ [x]))) (l ++ [x])
  = combine (seq start (List.length l)) l
    ++ [((start + List.length l)%nat, x)].
Proof.
  revert start. induction l as [| a l IH]; intros start; simpl.
  - rewrite Nat.add_0_r. reflexivity.
  - rewrite IH. f_equal. f_equal. f_equal. f_equal. lia.
Qed.

Lemma enumerate_snoc {A} (l : list A) (x : A) :
  enumerate (l ++ [x]) = enumerate l ++ [(List.length l, x)].
Proof. unfold enumerate. apply (combine_seq_snoc l x 0). Qed.

Lemma no_group_is_called signal_buffers kv_collections input_row_offsets_
    subgraphs idx h groups start :
  in_no_group idx groups = true ->
  call_first_group signal_buffers kv_collections input_row_offsets_
    subgraphs idx h (combine (seq start (List.length groups)) groups)
  = Return None.
Proof.
  revert start. induction groups as [| g groups IH]; intros start Hno;
    simpl; [reflexivity |].
  simpl in Hno. apply andb_true_iff in Hno. destruct Hno as [Hg Hrest].
  apply negb_true_iff in Hg. rewrite Hg. apply IH. exact Hrest.
Qed.

Lemma first_group_is_called signal_buffers kv_collections input_row_offsets_
    subgraphs idx h groups start k layer_group :
  nth_error groups k = Some layer_group ->
  contains (Z.of_nat idx) layer_group = true ->
  in_no_group idx (firstn k groups) = true ->
  call_first_group signal_buffers kv_collections input_row_offsets_
    subgraphs idx h (combine (seq start (List.length groups)) groups)
  = (h' <- call_subgraph signal_buffers kv_collections input_row_offsets_
             subgraphs (start + k) idx h ;;
     Return (Some h')).
Proof.
  revert start k. induction groups as [| g groups IH]; intros start k Hk Hc Hno.
  - destruct k; discriminate.
  - destruct k as [| k]; simpl in *.
    + injection Hk as ->. rewrite Hc, Nat.add_0_r. reflexivity.
    + apply andb_true_iff in Hno. destruct Hno as [Hg Hrest].
      apply negb_true_iff in Hg. rewrite Hg.
      rewrite (IH (S start) k Hk Hc Hrest).
      replace (S start + k)%nat with (start + S k)%nat by lia. reflexivity.
Qed.

Lemma getitem_out_of_range {A} (l : list A) (i : Z) :
  (Z.of_nat (List.length l) <= i)%Z \/ (i < - Z.of_nat (List.length l))%Z ->
  getitem l i = Raise (IndexError "list index out of range").
Proof.
  intros Hi. unfold getitem.
  destruct (Z.ltb_spec i 0) as [Hneg | Hpos].
  - destruct (Z.ltb_spec (i + Z.of_nat (List.length l)) 0) as [_ | Hge];
      [reflexivity | lia].
  - destruct (Z.ltb_spec i 0) as [Hneg | _]; [lia |]. simpl.
    destruct (Z.leb_spec (Z.of_nat (List.length l)) i) as [_ | Hlt];
      [reflexivity | lia].
Qed.

(** In subgraph mode the units of all groups are built before any layer
    runs: one group whose unit cannot be built fails the call. *)
Lemma group_build_failure_raises self layer_group tokens signal_buffers
    kv_cache_inputs_per_dev return_n_logits input_row_offsets :
  use_subgraphs self = true ->
  In layer_group (subgraph_layer_groups self) ->
  (forall types group_idx,
      raises (build_group self types (group_idx, layer_group))) ->
  raises (__call__ self tokens signal_buffers kv_cache_inputs_per_dev
            return_n_logits input_row_offsets).
Proof.
  intros Hs Hin Hfail. unfold __call__.
  apply bind_raises. intros h0 _.
  apply bind_raises. intros kvs _.
  apply bind_raises. intros offs _.
  apply bind_raises. intros h Hrun. exfalso.
  unfold run_layers in Hrun. rewrite Hs in Hrun.
  apply In_nth_error in Hin. destruct Hin as [gi Hgi].
  apply in_enumerate in Hgi.
  destruct (mapM_raises
              (build_group self
                 (subgraph_input_types signal_buffers kvs offs h0))
              (fun _ => True) (enumerate (subgraph_layer_groups self))
              (gi, layer_group) Hgi (Hfail _ gi) (fun _ _ _ => I))
    as [e [He _]].
  unfold build_subgraphs in Hrun. rewrite He in Hrun. discriminate.
Qed.

(** X8.  For every model the constructor returns, the forward call does
    not depend on [return_n_logits]: the one branch that reads it is the
    [VARIABLE] branch, which the constructor rules out. *)
Theorem constructed_model_ignores_return_n_logits
    dim_ n_heads_ layers_ norm_ output embedding kv_params_
    kv_collection_constructor_ devices_ mode use_subgraphs_ groups self
    tokens signal_buffers kv_cache_inputs_per_dev return_n_logits
    return_n_logits' input_row_offsets :
  __init__ dim_ n_heads_ layers_ norm_ output embedding kv_params_
    kv_collection_constructor_ devices_ mode use_subgraphs_ groups
    = Return self ->
  __call__ self tokens signal_buffers kv_cache_inputs_per_dev
    return_n_logits input_row_offsets
  = __call__ self tokens signal_buffers kv_cache_inputs_per_dev
      return_n_logits' input_row_offsets.
Proof.
  unfold __init__. simpl.
  destruct mode; simpl; intros H; [| discriminate |]; injection H as <-;
    reflexivity.
Qed.

(** X9.  The first element of an [ALL] result is the whole
    [LAST_TOKEN] result: when the call of a model in [ALL] mode returns
    [(last_logits, logits, offsets)], the same model in [LAST_TOKEN]
    mode returns [(last_logits,)] on the same inputs. *)
Theorem all_mode_extends_last_token_mode
    (self : t) tokens signal_buffers kv_cache_inputs_per_dev return_n_logits
    input_row_offsets out :
  __call__ (set_return_logits self ALL) tokens signal_buffers
    kv_cache_inputs_per_dev return_n_logits input_row_offsets = Return out ->
  exists last_logits logits,
    out = [last_logits; logits; input_row_offsets] /\
    __call__ (set_return_logits self LAST_TOKEN) tokens signal_buffers
      kv_cache_inputs_per_dev return_n_logits input_row_offsets
    = Return [last_logits].
Proof.
  intros H. apply call_stages in H.
  destruct H as (h0 & kvs & offs & h & H1 & H2 & H3 & H4 & H5).
  apply extract_logits_stages in H5.
  destruct H5 as (hd0 & indices & lth & ltd & last_logits &
                  E1 & E2 & E3 & E4 & E5 & E6).
  unfold extracted in E6. simpl in E6. destruct E6 as (logits & _ & ->).
  exists last_logits, logits. split; [reflexivity |].
  apply call_stages. exists h0, kvs, offs, h.
  repeat (split; [assumption |]).
  change (devices (set_return_logits self ALL)) with (devices self) in E4.
  change (project (set_return_logits self ALL)) with (project self) in E5.
  unfold extract_logits.
  change (devices (set_return_logits self LAST_TOKEN)) with (devices self).
  change (project (set_return_logits self LAST_TOKEN)) with (project self).
  change (return_logits (set_return_logits self LAST_TOKEN)) with LAST_TOKEN.
  rewrite E1; cbn [bind]. rewrite E2; cbn [bind]. rewrite E3; cbn [bind].
  rewrite E4; cbn [bind]. rewrite E5; cbn [bind]. reflexivity.
Qed.

(** X10.  A layer whose index lies in no group is called directly in
    subgraph mode too, whatever units were built. *)
Theorem ungrouped_layer_is_called_directly
    (self : t) signal_buffers kv_collections input_row_offsets_ subgraphs h
    idx layer :
  in_no_group idx (subgraph_layer_groups self) = true ->
  subgraph_step self signal_buffers kv_collections input_row_offsets_
    subgraphs h (idx, layer)
  = direct_step signal_buffers kv_collections input_row_offsets_ h
      (idx, layer).
Proof.
  intros Hno. unfold subgraph_step, enumerate. simpl fst.
  rewrite (no_group_is_called _ _ _ _ _ _ _ 0%nat Hno). reflexivity.
Qed.

(** X11.  With an empty list of groups, subgraph mode is direct mode:
    nothing is built and every layer is called directly, so the two
    forward calls are equal. *)
Theorem no_groups_makes_subgraph_mode_direct
    (self : t) tokens signal_buffers kv_cache_inputs_per_dev return_n_logits
    input_row_offsets :
  subgraph_layer_groups self = [] ->
  __call__ (set_use_subgraphs self true) tokens signal_buffers
    kv_cache_inputs_per_dev return_n_logits input_row_offsets
  = __call__ (set_use_subgraphs self false) tokens signal_buffers
      kv_cache_inputs_per_dev return_n_logits input_row_offsets.
Proof.
  intros Hg. unfold __call__, run_layers, build_subgraphs. simpl.
  rewrite Hg. simpl.
  destruct (embed_tokens self tokens signal_buffers) as [e | h0];
    [reflexivity |]. simpl.
  destruct (mapM (kv_collection_constructor self) kv_cache_inputs_per_dev)
    as [e | kvs]; [reflexivity |]. simpl.
  destruct (distribute_value input_row_offsets (devices self))
    as [e | offs]; [reflexivity |]. simpl.
  assert (Hsame :
            foldM (subgraph_step (set_use_subgraphs self true) signal_buffers
                     kvs offs []) (enumerate (layers self)) h0
            = foldM (direct_step signal_buffers kvs offs)
                (enumerate (layers self)) h0).
  { apply (foldM_ext _ _ (fun _ => True)); [| intros; exact I | exact I].
    intros h p _ _. unfold subgraph_step. simpl. rewrite Hg. simpl.
    destruct (direct_step signal_buffers kvs offs h p); reflexivity. }
  rewrite Hsame. reflexivity.
Qed.

(** X12.  A layer that lies in several groups is run by the unit of
    the first of them in list order; the later groups are not consulted
    for it.  The units are as many as the groups, so the lookup of the
    unit cannot miss. *)
Theorem first_group_in_order_runs_the_layer
    (self : t) signal_buffers kv_collections input_row_offsets_ types
    subgraphs h idx layer group_idx layer_group :
  build_subgraphs self types = Return subgraphs ->
  nth_error (subgraph_layer_groups self) group_idx = Some layer_group ->
  contains (Z.of_nat idx) layer_group = true ->
  in_no_group idx (firstn group_idx (subgraph_layer_groups self)) = true ->
  List.length subgraphs = List.length (subgraph_layer_groups self) /\
  exists sg,
    nth_error subgraphs group_idx = Some sg /\
    build_group self types (group_idx, layer_group) = Return sg /\
    subgraph_step self signal_buffers kv_collections input_row_offsets_
      subgraphs h (idx, layer)
    = unit_step signal_buffers kv_collections input_row_offsets_ sg idx h.
Proof.
  intros Hbuild Hg Hc Hno. unfold build_subgraphs in Hbuild.
  split.
  { rewrite (mapM_length _ _ _ Hbuild). unfold enumerate.
    rewrite length_combine, length_seq. apply Nat.min_id. }
  apply mapM_Forall2 in Hbuild.
  destruct (Forall2_nth_error_l _ _ _ Hbuild group_idx
              (group_idx, layer_group) (nth_error_enumerate_at _ _ _ Hg))
    as [sg [Hsg Hb]].
  exists sg. split; [exact Hsg |]. split; [exact Hb |].
  unfold subgraph_step, enumerate. simpl fst.
  rewrite (first_group_is_called _ _ _ _ _ _ _ 0%nat group_idx layer_group
             Hg Hc Hno).
  simpl Nat.add.
  rewrite (call_subgraph_unit _ _ _ _ _ _ _ sg Hsg).
  destruct (unit_step signal_buffers kv_collections input_row_offsets_ sg
              idx h); reflexivity.
Qed.

(** X13.  A group whose first index names no layer (too large, or too
    negative to count from the end) is an [IndexError] of the first
    loop, and the forward call in subgraph mode raises. *)
Theorem template_index_out_of_range_fails_the_call
    (self : t) layer_group tokens signal_buffers kv_cache_inputs_per_dev
    return_n_logits input_row_offsets :
  use_subgraphs self = true ->
  In layer_group (subgraph_layer_groups self) ->
  template_out_of_range (layers self) layer_group ->
  (forall types group_idx,
      build_group self types (group_idx, layer_group)
      = Raise (IndexError "list index out of range")) /\
  raises (__call__ self tokens signal_buffers kv_cache_inputs_per_dev
            return_n_logits input_row_offsets).
Proof.
  intros Hs Hin (first & rest & -> & Hrange).
  assert (Hb : forall types group_idx,
             build_group self types (group_idx, first :: rest)
             = Raise (IndexError "list index out of range")).
  { intros types group_idx. simpl.
    rewrite (getitem_out_of_range (layers self) first Hrange).
    reflexivity. }
  split; [exact Hb |].
  apply (group_build_failure_raises self (first :: rest)); try assumption.
  intros types group_idx. eexists. apply Hb.
Qed.

(** X14.  A model built without layers and without groups gets the
    default [[[]]], one empty group.  In subgraph mode its forward call
    therefore fails the non-empty assertion as soon as embedding, cache
    handles and offsets are there, although there is no layer to run. *)
Theorem no_layers_with_default_groups_fails_in_subgraph_mode
    dim_ n_heads_ norm_ output embedding kv_params_
    kv_collection_constructor_ devices_ mode self tokens signal_buffers
    kv_cache_inputs_per_dev return_n_logits input_row_offsets h0
    kv_collections input_row_offsets_ :
  __init__ dim_ n_heads_ [] norm_ output embedding kv_params_
    kv_collection_constructor_ devices_ mode true None = Return self ->
  embedding tokens signal_buffers = Return h0 ->
  mapM kv_collection_constructor_ kv_cache_inputs_per_dev
    = Return kv_collections ->
  distribute_value input_row_offsets devices_ = Return input_row_offsets_ ->
  subgraph_layer_groups self = [[]] /\
  __call__ self tokens signal_buffers kv_cache_inputs_per_dev
    return_n_logits input_row_offsets
  = Raise (AssertionError
             "Subgraph layer groups must contain at least one layer").
Proof.
  unfold __init__. simpl.
  destruct mode; simpl; intros H; [| discriminate |]; injection H as <-;
    intros H1 H2 H3; (split; [reflexivity |]);
    unfold __call__; simpl; rewrite H1; simpl; rewrite H2; simpl;
    rewrite H3; reflexivity.
Qed.

(** X15.  If the layer stack leaves no hidden state at all (no device
    produced one), the forward call raises [IndexError] at [h[0]],
    before any logit is computed. *)
Theorem empty_hidden_state_is_an_index_error
    (self : t) tokens signal_buffers kv_cache_inputs_per_dev return_n_logits
    input_row_offsets :
  stack_output self tokens signal_buffers kv_cache_inputs_per_dev
    input_row_offsets [] ->
  __call__ self tokens signal_buffers kv_cache_inputs_per_dev
    return_n_logits input_row_offsets
  = Raise (IndexError "list index out of range").
Proof.
  intros (h0 & kvs & offs & H1 & H2 & H3 & H4). unfold __call__.
  rewrite H1; simpl. rewrite H2; simpl. rewrite H3; simpl. rewrite H4.
  reflexivity.
Qed.

(** X16.  In direct mode the stack is the composition of its layers in
    list order, each called with its own position: a model with one
    more layer at the end runs the shorter stack first and then calls
    the new layer with the constant [len(layers)]. *)
Theorem appended_layer_runs_last_with_its_index
    (self : t) layer signal_buffers kv_collections input_row_offsets_ h :
  use_subgraphs self = false ->
  run_layers (set_layers self (layers self ++ [layer])) signal_buffers
    kv_collections input_row_offsets_ h
  = (h' <- run_layers self signal_buffers kv_collections input_row_offsets_
             h ;;
     direct_step signal_buffers kv_collections input_row_offsets_ h'
       (List.length (layers self), layer)).
Proof.
  intros Hd. unfold run_layers. simpl. rewrite Hd.
  rewrite enumerate_snoc, foldM_app.
  destruct (foldM (direct_step signal_buffers kv_collections
                     input_row_offsets_) (enumerate (layers self)) h)
    as [e | h']; [reflexivity |].
  simpl.
  destruct (direct_step signal_buffers kv_collections input_row_offsets_ h'
              (List.length (layers self), layer)); reflexivity.
Qed.

End ForwardEdges.

(** ** Runs for the edge cases *)

Section EdgeRuns.

Import Ref Example Edge.

Lemma take_twice_witness :
  Iter.take [1; 2; 3; 4; 5]%nat 2 = Return ([1; 2]%nat, [3; 4; 5]%nat) /\
  Iter.take [3; 4; 5]%nat 2 = Return ([3; 4]%nat, [5]%nat) /\
  Iter.take [1; 2; 3; 4; 5]%nat (2 + 2)
  = Return ([1; 2]%nat ++ [3; 4]%nat, [5]%nat).
Proof.
  assert (H1 : Iter.take [1; 2; 3; 4; 5]%nat 2
               = Return ([1; 2]%nat, [3; 4; 5]%nat)) by reflexivity.
  assert (H2 : Iter.take [3; 4; 5]%nat 2 = Return ([3; 4]%nat, [5]%nat))
    by reflexivity.
  split; [exact H1 |]. split; [exact H2 |].
  pose proof (take_twice_is_take_of_the_sum _ _ _ _ _ _ _ H1 H2) as H.
  destruct (Iter.take [1; 2; 3; 4; 5]%nat (2 + 2)) as [e | r].
  - destruct H as [Hbig _]. exfalso. vm_compute in Hbig. discriminate Hbig.
  - destruct H as [_ ->]. reflexivity.
Defined.

Lemma distribute_value_witness :
  distribute_value (G := graph) tokens two_devices = Return [tokens; tokens]
  /\ List.length [tokens; tokens] = List.length two_devices.
Proof.
  assert (H : distribute_value (G := graph) tokens two_devices
              = Return [tokens; tokens]) by reflexivity.
  split; [exact H |].
  exact (proj1 (distribute_value_is_one_per_device (G := graph) tokens
                  two_devices [tokens; tokens] H)).
Defined.

Lemma distribute_value_failure_witness :
  (forall d', In d' [0%nat] ->
     exists t, tensor_to (MaxGraph := missing_device) tokens d' = Return t) /\
  tensor_to (MaxGraph := missing_device) tokens 7%nat
  = Raise (RuntimeError "device not available") /\
  distribute_value (G := missing_device) tokens ([0%nat] ++ 7%nat :: [1%nat])
  = Raise (RuntimeError "device not available").
Proof.
  assert (H1 : forall d', In d' [0%nat] ->
             exists t, tensor_to (MaxGraph := missing_device) tokens d'
                       = Return t).
  { intros d' [<- | []]. exists tokens. reflexivity. }
  assert (H2 : tensor_to (MaxGraph := missing_device) tokens 7%nat
               = Raise (RuntimeError "device not available")) by reflexivity.
  split; [exact H1 |]. split; [exact H2 |].
  exact (distribute_value_raises_at_the_first_failure (G := missing_device)
           tokens [0%nat] 7%nat [1%nat] _ H1 H2).
Defined.

Lemma plain_reduce_witness :
  DistributedTransformerBlock.use_plain_allreduce (block_at "layers.0.")
  = true /\
  run_block
    (set_mlp_shards (block_at "layers.0.")
       (map without_down_proj
          (DistributedTransformerBlock.mlp_shards (block_at "layers.0."))))
  = run_block (block_at "layers.0.").
Proof.
  assert (H : DistributedTransformerBlock.use_plain_allreduce
                (block_at "layers.0.") = true) by reflexivity.
  split; [exact H |].
  exact (plain_reduce_never_reads_down_proj (block_at "layers.0.")
           (Vec [0%Z]) [tokens; tokens] two_buffers [[]; []]
           [row_offsets; row_offsets] H).
Defined.

Lemma too_few_normed_tensors_witness :
  (List.length (@nil RTensor)
   < List.length (DistributedTransformerBlock.mlp_shards silent_norm_block))%nat
  /\
  run_block silent_norm_block = Raise (IndexError "list index out of range").
Proof.
  assert (Hlen : (List.length (@nil RTensor)
                  < List.length (DistributedTransformerBlock.mlp_shards
                                   silent_norm_block))%nat)
    by (simpl; lia).
  split; [exact Hlen |].
  apply (too_few_normed_tensors_is_an_index_error silent_norm_block
           (Vec [0%Z]) [tokens; tokens] two_buffers [[]; []]
           [row_offsets; row_offsets] [tokens; tokens] [tokens; tokens]
           [scale 2 tokens; scale 2 tokens] []);
    try reflexivity; try exact Hlen.
  intros i s x _ Hx. destruct i; discriminate Hx.
Defined.

Lemma return_n_logits_witness :
  construct two_layers LAST_TOKEN false (Some [[0; 1]%Z])
  = Return (model LAST_TOKEN false [[0; 1]%Z]) /\
  DistributedTransformer.__call__ (model LAST_TOKEN false [[0; 1]%Z]) tokens
    two_buffers [[]; []] (Vec [1%Z]) row_offsets
  = DistributedTransformer.__call__ (model LAST_TOKEN false [[0; 1]%Z])
      tokens two_buffers [[]; []] (Vec [5%Z]) row_offsets.
Proof.
  assert (H : construct two_layers LAST_TOKEN false (Some [[0; 1]%Z])
              = Return (model LAST_TOKEN false [[0; 1]%Z])) by reflexivity.
  split; [exact H |].
  exact (constructed_model_ignores_return_n_logits 1%Z 1%Z two_layers
           identity_norm head embedding tt kv_constructor two_devices
           LAST_TOKEN false (Some [[0; 1]%Z]) _ tokens two_buffers [[]; []]
           (Vec [1%Z]) (Vec [5%Z]) row_offsets H).
Defined.

Lemma all_extends_last_token_witness :
  run (set_return_logits (model LAST_TOKEN false [[0; 1]%Z]) ALL)
  = Return [Mat [[420]; [700]; [1260]]%Z;
            Mat [[140]; [280]; [420]; [560]; [700]; [840]; [980]; [1120];
                 [1260]]%Z;
            row_offsets] /\
  run (set_return_logits (model LAST_TOKEN false [[0; 1]%Z]) LAST_TOKEN)
  = Return [Mat [[420]; [700]; [1260]]%Z].
Proof.
  assert (H : run (set_return_logits (model LAST_TOKEN false [[0; 1]%Z]) ALL)
              = Return [Mat [[420]; [700]; [1260]]%Z;
                        Mat [[140]; [280]; [420]; [560]; [700]; [840]; [980];
                             [1120]; [1260]]%Z;
                        row_offsets]) by reflexivity.
  split; [exact H |].
  destruct (all_mode_extends_last_token_mode
              (model LAST_TOKEN false [[0; 1]%Z]) tokens two_buffers
              [[]; []] (Vec [1%Z]) row_offsets _ H)
    as (last_logits & logits & Hout & Hcall).
  injection Hout as <- _. exact Hcall.
Defined.

Lemma ungrouped_layer_witness :
  in_no_group 0
    (DistributedTransformer.subgraph_layer_groups
       (model LAST_TOKEN true [[1]%Z])) = true /\
  DistributedTransformer.subgraph_step (model LAST_TOKEN true [[1]%Z])
    two_buffers [[]; []] [row_offsets; row_offsets] [] [tokens; tokens]
    (0%nat, DistributedTransformer.Block (block_at "layers.0."))
  = DistributedTransformer.direct_step two_buffers [[]; []]
      [row_offsets; row_offsets] [tokens; tokens]
      (0%nat, DistributedTransformer.Block (block_at "layers.0.")).
Proof.
  assert (H : in_no_group 0
                (DistributedTransformer.subgraph_layer_groups
                   (model LAST_TOKEN true [[1]%Z])) = true) by reflexivity.
  split; [exact H |].
  exact (ungrouped_layer_is_called_directly (model LAST_TOKEN true [[1]%Z])
           two_buffers [[]; []] [row_offsets; row_offsets] []
           [tokens; tokens] 0%nat _ H).
Defined.

Lemma no_groups_witness :
  DistributedTransformer.subgraph_layer_groups (model LAST_TOKEN false [])
  = [] /\
  run (set_use_subgraphs (model LAST_TOKEN false []) true)
  = run (set_use_subgraphs (model LAST_TOKEN false []) false).
Proof.
  assert (H : DistributedTransformer.subgraph_layer_groups
                (model LAST_TOKEN false []) = []) by reflexivity.
  split; [exact H |].
  exact (no_groups_makes_subgraph_mode_direct (model LAST_TOKEN false [])
           tokens two_buffers [[]; []] (Vec [1%Z]) row_offsets H).
Defined.

Lemma first_group_witness :
  (exists subgraphs,
      DistributedTransformer.build_subgraphs
        (model LAST_TOKEN true [[0]; [1]; [1; 0]]%Z) run_types
      = Return subgraphs) /\
  nth_error
    (DistributedTransformer.subgraph_layer_groups
       (model LAST_TOKEN true [[0]; [1]; [1; 0]]%Z)) 1 = Some [1%Z] /\
  contains (Z.of_nat 1) [1%Z] = true /\
  in_no_group 1
    (firstn 1 (DistributedTransformer.subgraph_layer_groups
                 (model LAST_TOKEN true [[0]; [1]; [1; 0]]%Z))) = true /\
  exists subgraphs,
    DistributedTransformer.build_subgraphs
      (model LAST_TOKEN true [[0]; [1]; [1; 0]]%Z) run_types
    = Return subgraphs /\
    List.length subgraphs = 3%nat.
Proof.
  assert (H1 : DistributedTransformer.build_subgraphs
                 (model LAST_TOKEN true [[0]; [1]; [1; 0]]%Z) run_types
               = Return [ {| g_counts := (2, 2, 2)%nat;
                             g_unit := block_unit |};
                          {| g_counts := (2, 2, 2)%nat;
                             g_unit := block_unit |};
                          {| g_counts := (2, 2, 2)%nat;
                             g_unit := block_unit |} ]) by reflexivity.
  assert (H2 : nth_error
                 (DistributedTransformer.subgraph_layer_groups
                    (model LAST_TOKEN true [[0]; [1]; [1; 0]]%Z)) 1
               = Some [1%Z]) by reflexivity.
  assert (H3 : contains (Z.of_nat 1) [1%Z] = true) by reflexivity.
  assert (H4 : in_no_group 1
                 (firstn 1 (DistributedTransformer.subgraph_layer_groups
                              (model LAST_TOKEN true [[0]; [1]; [1; 0]]%Z)))
               = true) by reflexivity.
  split; [eexists; exact H1 |].
  repeat (split; [assumption |]).
  eexists. split; [exact H1 |].
  exact (proj1 (first_group_in_order_runs_the_layer
                  (model LAST_TOKEN true [[0]; [1]; [1; 0]]%Z) two_buffers
                  [[]; []] [row_offsets; row_offsets] run_types _
                  [tokens; tokens] 1%nat
                  (DistributedTransformer.Block (block_at "layers.1."))
                  1%nat [1%Z] H1 H2 H3 H4)).
Defined.

Lemma template_out_of_range_witness :
  DistributedTransformer.use_subgraphs (model LAST_TOKEN true [[5]%Z]) = true
  /\
  In [5%Z]
    (DistributedTransformer.subgraph_layer_groups
       (model LAST_TOKEN true [[5]%Z])) /\
  template_out_of_range
    (DistributedTransformer.layers (model LAST_TOKEN true [[5]%Z])) [5%Z] /\
  raises (run (model LAST_TOKEN true [[5]%Z])).
Proof.
  assert (H1 : DistributedTransformer.use_subgraphs
                 (model LAST_TOKEN true [[5]%Z]) = true) by reflexivity.
  assert (H2 : In [5%Z]
                 (DistributedTransformer.subgraph_layer_groups
                    (model LAST_TOKEN true [[5]%Z])))
    by (left; reflexivity).
  assert (H3 : template_out_of_range
                 (DistributedTransformer.layers
                    (model LAST_TOKEN true [[5]%Z])) [5%Z]).
  { exists 5%Z, []. split; [reflexivity |]. left. simpl. lia. }
  repeat (split; [assumption |]).
  exact (proj2 (template_index_out_of_range_fails_the_call
                  (model LAST_TOKEN true [[5]%Z]) [5%Z] tokens two_buffers
                  [[]; []] (Vec [1%Z]) row_offsets H1 H2 H3)).
Defined.

Lemma no_layers_witness :
  construct [] LAST_TOKEN true None
  = Return (model_of [] LAST_TOKEN true [[]]) /\
  embedding tokens two_buffers = Return [tokens; tokens] /\
  mapM kv_constructor [[]; []] = Return [[]; []] /\
  distribute_value (G := graph) row_offsets two_devices
  = Return [row_offsets; row_offsets] /\
  run (model_of [] LAST_TOKEN true [[]])
  = Raise (AssertionError
             "Subgraph layer groups must contain at least one layer").
Proof.
  assert (H0 : construct [] LAST_TOKEN true None
               = Return (model_of [] LAST_TOKEN true [[]])) by reflexivity.
  assert (H1 : embedding tokens two_buffers = Return [tokens; tokens])
    by reflexivity.
  assert (H2 : mapM kv_constructor [[]; []] = Return [[]; []])
    by reflexivity.
  assert (H3 : distribute_value (G := graph) row_offsets two_devices
               = Return [row_offsets; row_offsets]) by reflexivity.
  repeat (split; [assumption |]).
  exact (proj2 (no_layers_with_default_groups_fails_in_subgraph_mode 1%Z 1%Z
                  identity_norm head embedding tt kv_constructor two_devices
                  LAST_TOKEN _ tokens two_buffers [[]; []] (Vec [1%Z])
                  row_offsets _ _ _ H0 H1 H2 H3)).
Defined.

Lemma empty_hidden_state_witness :
  stack_output (model_of silent_layers LAST_TOKEN false []) tokens
    two_buffers [[]; []] row_offsets [] /\
  run (model_of silent_layers LAST_TOKEN false [])
  = Raise (IndexError "list index out of range").
Proof.
  assert (H : stack_output (model_of silent_layers LAST_TOKEN false [])
                tokens two_buffers [[]; []] row_offsets []).
  { exists [tokens; tokens], [[]; []], [row_offsets; row_offsets].
    repeat split; reflexivity. }
  split; [exact H |].
  exact (empty_hidden_state_is_an_index_error
           (model_of silent_layers LAST_TOKEN false []) tokens two_buffers
           [[]; []] (Vec [1%Z]) row_offsets H).
Defined.

Lemma appended_layer_witness :
  DistributedTransformer.use_subgraphs
    (model_of [DistributedTransformer.Block (block_at "layers.0.")]
       LAST_TOKEN false []) = false /\
  DistributedTransformer.run_layers
    (set_layers
       (model_of [DistributedTransformer.Block (block_at "layers.0.")]
          LAST_TOKEN false [])
       ([DistributedTransformer.Block (block_at "layers.0.")]
        ++ [DistributedTransformer.Block (block_at "layers.1.")]))
    two_buffers [[]; []] [row_offsets; row_offsets] [tokens; tokens]
  = DistributedTransformer.run_layers (model LAST_TOKEN false [])
      two_buffers [[]; []] [row_offsets; row_offsets] [tokens; tokens].
Proof.
  assert (H : DistributedTransformer.use_subgraphs
                (model_of
                   [DistributedTransformer.Block (block_at "layers.0.")]
                   LAST_TOKEN false []) = false) by reflexivity.
  split; [exact H |].
  refine (eq_trans
            (appended_layer_runs_last_with_its_index
               (model_of
                  [DistributedTransformer.Block (block_at "layers.0.")]
                  LAST_TOKEN false [])
               (DistributedTransformer.Block (block_at "layers.1."))
               two_buffers [[]; []] [row_offsets; row_offsets]
               [tokens; tokens] H) _).
  reflexivity.
Defined.

End EdgeRuns.

(** ** Negative indices in the groups *)

Section NegativeIndices.
Context {G : MaxGraph}.

Import DistributedTransformer.

Lemma getitem_minus_one {A} (front : list A) (x : A) :
  getitem (front ++ [x]) (-1) = Return x.
Proof.
  unfold getitem. rewrite length_app. simpl List.length.
  replace (-1 <? 0)%Z with true by reflexivity.
  replace (-1 + Z.of_nat (List.length front + 1))%Z
    with (Z.of_nat (List.length front)) by lia.
  destruct (Z.ltb_spec (Z.of_nat (List.length front)) 0) as [Hneg | _];
    [lia |].
  destruct (Z.leb_spec (Z.of_nat (List.length front + 1))
              (Z.of_nat (List.length front))) as [Hle | _]; [lia |].
  simpl. rewrite Nat2Z.id.
  rewrite nth_error_app2 by lia. rewrite Nat.sub_diag. reflexivity.
Qed.

Lemma negative_members_contain_no_index (layer_group : list Z) (idx : nat) :
  (forall z, In z layer_group -> (z < 0)%Z) ->
  contains (Z.of_nat idx) layer_group = false.
Proof.
  intros Hneg. unfold contains.
  destruct (existsb (Z.eqb (Z.of_nat idx)) layer_group) eqn:He;
    [| reflexivity].
  apply existsb_exists in He. destruct He as [z [Hin Heq]].
  apply Z.eqb_eq in Heq. specialize (Hneg z Hin). lia.
Qed.

(** X17.  A group that starts with [-1] takes the last layer as its
    template, as list indexing counts from the end, and the unit is
    built with the weight prefix [layers.-1.], the index as written. *)
Theorem group_starting_at_minus_one_is_templated_on_the_last_layer
    (self : t) front b types group_idx rest :
  layers self = front ++ [Block b] ->
  build_group self types (group_idx, (-1)%Z :: rest)
  = DistributedTransformerBlock.build_subgraph b
      ("dist_transformer_block_" ++ str (Z.of_nat group_idx))%string
      types "layers.-1.".
Proof.
  intros Hl. simpl. rewrite Hl, getitem_minus_one. reflexivity.
Qed.

(** X18.  Membership of a layer in a group compares its position, which
    is never negative, with the members as written: groups that hold
    only negative indices select no layer, and every layer is called
    directly in subgraph mode. *)
Theorem negative_group_members_select_no_layer
    (self : t) signal_buffers kv_collections input_row_offsets_ subgraphs h
    idx layer :
  (forall layer_group z,
      In layer_group (subgraph_layer_groups self) -> In z layer_group ->
      (z < 0)%Z) ->
  subgraph_step self signal_buffers kv_collections input_row_offsets_
    subgraphs h (idx, layer)
  = direct_step signal_buffers kv_collections input_row_offsets_ h
      (idx, layer).
Proof.
  intros Hneg. unfold subgraph_step, enumerate. simpl fst.
  rewrite (no_group_is_called _ _ _ _ _ _ _ 0%nat); [reflexivity |].
  unfold in_no_group. apply forallb_forall. intros layer_group Hin.
  apply negb_true_iff. apply negative_members_contain_no_index.
  intros z Hz. apply (Hneg layer_group z Hin Hz).
Qed.

End NegativeIndices.

Section NegativeRuns.

Import Ref Example Edge.

Lemma minus_one_template_witness :
  DistributedTransformer.layers (model LAST_TOKEN true [[-1]%Z])
  = [DistributedTransformer.Block (block_at "layers.0.")]
    ++ [DistributedTransformer.Block (block_at "layers.1.")] /\
  DistributedTransformer.build_group (model LAST_TOKEN true [[-1]%Z])
    run_types (0%nat, [(-1)%Z])
  = Return {| g_counts := (2, 2, 2)%nat; g_unit := block_unit |}.
Proof.
  assert (H : DistributedTransformer.layers (model LAST_TOKEN true [[-1]%Z])
              = [DistributedTransformer.Block (block_at "layers.0.")]
                ++ [DistributedTransformer.Block (block_at "layers.1.")])
    by reflexivity.
  split; [exact H |].
  refine (eq_trans
            (group_starting_at_minus_one_is_templated_on_the_last_layer
               (model LAST_TOKEN true [[-1]%Z])
               [DistributedTransformer.Block (block_at "layers.0.")]
               (block_at "layers.1.") run_types 0%nat [] H) _).
  reflexivity.
Defined.

Lemma negative_members_witness :
  (forall layer_group z,
      In layer_group
        (DistributedTransformer.subgraph_layer_groups
           (model LAST_TOKEN true [[-1; -2]%Z])) ->
      In z layer_group -> (z < 0)%Z) /\
  DistributedTransformer.subgraph_step (model LAST_TOKEN true [[-1; -2]%Z])
    two_buffers [[]; []] [row_offsets; row_offsets] [] [tokens; tokens]
    (0%nat, DistributedTransformer.Block (block_at "layers.0."))
  = DistributedTransformer.direct_step two_buffers [[]; []]
      [row_offsets; row_offsets] [tokens; tokens]
      (0%nat, DistributedTransformer.Block (block_at "layers.0.")).
Proof.
  assert (H : forall layer_group z,
             In layer_group
               (DistributedTransformer.subgraph_layer_groups
                  (model LAST_TOKEN true [[-1; -2]%Z])) ->
             In z layer_group -> (z < 0)%Z).
  { intros layer_group z [<- | []] [<- | [<- | []]]; lia. }
  split; [exact H |].
  exact (negative_group_members_select_no_layer
           (model LAST_TOKEN true [[-1; -2]%Z]) two_buffers [[]; []]
           [row_offsets; row_offsets] [] [tokens; tokens] 0%nat
           (DistributedTransformer.Block (block_at "layers.0.")) H).
Defined.

End NegativeRuns.
